(** * py-github: the XML response decoder of [github.py]

    A shallow embedding of the module [github.py] (a client of the GitHub
    v2 XML API) and the properties of its generic decoder, of its type
    registry [_types] and of the endpoint accessors built on them.

    Conventions of the embedding.
    - A DOM node of [xml.dom.minidom] is a value of [Node]; the attributes
      the module reads ([localName], [attributes], [childNodes],
      [firstChild], [nodeType], [data]) are functions on [Node].
    - The module-level dictionary [_types] is a [gmap string callable];
      code that mutates it is written in the state monad [M].
    - A raised exception is the [Raise] case of [result].
    - What the module takes from the interpreter and its libraries and
      whose exact behaviour depends on their version ([int] and [float]
      on text, the XML parser) are the fields of the class [Runtime]. *)

From Stdlib Require Import ZArith Ascii String Floats.SpecFloat.
From stdpp Require Import base numbers strings list gmap.

#[local] Set Warnings "-register-all".

Local Open Scope string_scope.
Local Open Scope Z_scope.

(** ** xml.dom.minidom nodes *)

Module minidom.

(** The childless node classes that carry a [data] attribute. *)
Inductive CharKind := Text | CDATASection | ProcessingInstruction | Comment.

Inductive Node :=
| Element (localName : string) (attributes : gmap string string)
          (childNodes : list Node)
| CharacterData (kind : CharKind) (data : string).

(** [xml.dom.Node] node type constants. *)
Definition ELEMENT_NODE : Z := 1.
Definition TEXT_NODE : Z := 3.
Definition CDATA_SECTION_NODE : Z := 4.
Definition PROCESSING_INSTRUCTION_NODE : Z := 7.
Definition COMMENT_NODE : Z := 8.

Definition nodeType (n : Node) : Z :=
  match n with
  | Element _ _ _ => ELEMENT_NODE
  | CharacterData Text _ => TEXT_NODE
  | CharacterData CDATASection _ => CDATA_SECTION_NODE
  | CharacterData ProcessingInstruction _ => PROCESSING_INSTRUCTION_NODE
  | CharacterData Comment _ => COMMENT_NODE
  end.

(** [n.localName]: [None] on every node that is not an element. *)
Definition localName (n : Node) : option string :=
  match n with
  | Element ln _ _ => Some ln
  | CharacterData _ _ => None
  end.

(** [n.attributes]: [None] on every node that is not an element. *)
Definition attributes (n : Node) : option (gmap string string) :=
  match n with
  | Element _ a _ => Some a
  | CharacterData _ _ => None
  end.

Definition childNodes (n : Node) : list Node :=
  match n with
  | Element _ _ chs => chs
  | CharacterData _ _ => []
  end.

Definition firstChild (n : Node) : option Node := head (childNodes n).

Record Document := { documentElement : Node }.

End minidom.
Export minidom.

(** ** Decoded values, exceptions *)

(** The response classes of the module (lines 98-173). *)
Inductive cls :=
| BaseResponse | User | Plan | Repository | PublicKey
| Commit | Parent | Author | Committer | Issue.

(** What the decoder returns: [unicode], [int], [float], [bool], [list]
    and instances of the response classes with their [__dict__]. *)
Inductive value :=
| VUnicode (s : string)
| VInt (n : Z)
| VFloat (f : spec_float)
| VBool (b : bool)
| VList (l : list value)
| VInstance (c : cls) (dict : gmap string value).

Inductive exn :=
| Exception (el : Node) (known : gset string)
    (* "Can't parse %s, known: %s" % (el.toxml(), repr(_types.keys())) *)
| KeyError (key : string)
| AttributeError (attr : string)
| ValueError (text : string)
| UnicodeEncodeError (text : string)
| ExternalError (msg : string).
    (* whatever the page fetcher or the XML parser raises *)

Inductive result (A : Type) :=
| Ok (a : A)
| Raise (e : exn).
Arguments Ok {A} a.
Arguments Raise {A} e.

#[global] Instance result_ret : MRet result := @Ok.
#[global] Instance result_bind : MBind result := fun A B f r =>
  match r with
  | Ok a => f a
  | Raise e => Raise e
  end.
#[global] Instance result_fmap : FMap result := fun A B f r =>
  match r with
  | Ok a => Ok (f a)
  | Raise e => Raise e
  end.

(** ** The interpreter and its libraries *)

Class Runtime := {
  py_int : string -> option Z;             (* int(text); None: ValueError *)
  py_float : string -> option spec_float;  (* float(text); None: ValueError *)
  parseString : string -> result Document  (* xml.dom.minidom.parseString *)
}.

(** ** The type registry and the generic decoder (lines 50-107) *)

(** The five lambdas of the dictionary literal of lines 50-56. *)
Inductive lambda :=
| lambda_string | lambda_integer | lambda_float | lambda_datetime
| lambda_boolean.

(** The objects stored in [_types]: the lambdas, the function
    [_parseArray] and the response classes. *)
Inductive callable :=
| lambda_ (l : lambda)
| fn_parseArray
| class_ (c : cls).

(** Python truth value of a string or [None]: of the local variable
    [type] of [_parse], of [self.user] and [self.token]. *)
Definition truthy (s : option string) : bool :=
  match s with
  | Some s => negb (String.eqb s "")
  | None => false
  end.

(** [x.data] where [x] is the value of [.firstChild]: [None] and elements
    have no such attribute. *)
Definition data (x : option Node) : result string :=
  match x with
  | Some (CharacterData _ d) => Ok d
  | _ => Raise (AttributeError "data")
  end.

(** The [while ch and not type] loop of [_parse] (lines 69-73), over the
    sibling chain that starts at [el.firstChild]. *)
Fixpoint find_child_type (chs : list Node) (type : option string)
  : result (option string) :=
  match chs with
  | [] => Ok type
  | ch :: rest =>
      if truthy type then Ok type
      else if bool_decide (localName ch = Some "type")
           then d ← data (firstChild ch); find_child_type rest (Some d)
           else find_child_type rest type
  end.

(** [k in _types]. *)
Definition registered (types : gmap string callable) (k : string) : bool :=
  bool_decide (is_Some (types !! k)).

(** Lines 61-73 of [_parse]: the value of the local variable [type] when
    the test [if not type] is reached. *)
Definition find_type (types : gmap string callable) (el : Node)
  : result (option string) :=
  match attributes el ≫= (.!! "type") with
  | Some v => Ok (Some v)
  | None =>
      if from_option (registered types) false (localName el)
      then Ok (localName el)
      else if bool_decide (1 < Z.of_nat (length (childNodes el)))
           then find_child_type (childNodes el) None
           else Ok (Some "string")
  end.

(** Calling one of the lambdas of lines 50-56 on [x]. *)
Definition call_lambda `{Runtime} (l : lambda) (x : Node) : result value :=
  d ← data (firstChild x);
  match l with
  | lambda_string => Ok (VUnicode d)
  | lambda_integer =>
      match py_int d with
      | Some n => Ok (VInt n)
      | None => Raise (ValueError d)
      end
  | lambda_float =>
      match py_float d with
      | Some f => Ok (VFloat f)
      | None => Raise (ValueError d)
      end
  | lambda_datetime => Ok (VUnicode d)
  | lambda_boolean => Ok (VBool (String.eqb d "true"))
  end.

(** The test of lines 93 and 104:
    [ch.nodeType != xml.dom.Node.TEXT_NODE and ch.firstChild]. *)
Definition has_content (ch : Node) : bool :=
  negb (nodeType ch =? TEXT_NODE) && bool_decide (is_Some (firstChild ch)).

(** [s.replace('-', '_')]. *)
Fixpoint replace_hyphens (s : string) : string :=
  match s with
  | EmptyString => EmptyString
  | String c s' =>
      String (if Ascii.eqb c "-" then "_"%char else c) (replace_hyphens s')
  end.

(** The loop of [_parseArray] (lines 91-96); [rv] is the list built so
    far and [parse] the decoder called on the children. *)
Definition parseArray_loop (parse : Node -> result value)
  : list Node -> list value -> result (list value) :=
  fix loop chs rv :=
    match chs with
    | [] => Ok rv
    | ch :: rest =>
        if has_content ch
        then v ← parse ch; loop rest ((rv ++ [v])%list)
        else loop rest rv
    end.

(** The loop of [BaseResponse.__init__] (lines 102-107); [dict] is
    [self.__dict__]. *)
Definition init_loop (parse : Node -> result value)
  : list Node -> gmap string value -> result (gmap string value) :=
  fix loop chs dict :=
    match chs with
    | [] => Ok dict
    | ch :: rest =>
        if has_content ch
        then
          match localName ch with
          | Some name =>
              let ln := replace_hyphens name in
              v ← parse ch; loop rest (<[ln := v]> dict)
          | None => Raise (AttributeError "replace")
          end
        else loop rest dict
    end.

(** Method resolution: the response classes and their bases, most
    specific first. *)
Definition mro (c : cls) : list cls :=
  match c with
  | BaseResponse => [BaseResponse]
  | Parent => [Parent; Commit; BaseResponse]
  | Author => [Author; User; BaseResponse]
  | Committer => [Committer; User; BaseResponse]
  | _ => [c; BaseResponse]
  end.

(** The classes whose body defines [__init__]: [BaseResponse] alone. *)
Definition defines_init (c : cls) : bool :=
  match c with
  | BaseResponse => true
  | _ => false
  end.

(** The classes whose body defines [__repr__]. *)
Definition defines_repr (c : cls) : bool :=
  match c with
  | Parent | Author | Committer => false
  | _ => true
  end.

(** The class whose method an instance of [c] runs. *)
Definition method_owner (defines : cls -> bool) (c : cls) : option cls :=
  head (filter (fun b => defines b = true) (mro c)).

(** [_parse] (lines 58-79).  The decoder reads the registry and never
    writes it, so the registry is an argument.  The calls
    [_types[type](el)] of [_parseArray] and of a response class are
    inlined as their loops, which call [_parse] on the children.  The
    recursion limit of the interpreter is not part of the model: the
    properties below are about documents that the interpreter can
    descend into. *)
Fixpoint _parse `{Runtime} (types : gmap string callable) (el : Node)
  {struct el} : result value :=
  type ← find_type types el;
  if negb (truthy type) then Raise (Exception el (dom types))
  else
    let type := default "" type in
    match types !! type with
    | None => Raise (KeyError type)
    | Some (lambda_ l) => call_lambda l el
    | Some fn_parseArray =>
        VList <$>
          match el with
          | Element _ _ chs => parseArray_loop (_parse types) chs []
          | CharacterData _ _ => parseArray_loop (_parse types) [] []
          end
    | Some (class_ c) =>
        match method_owner defines_init c with
        | Some BaseResponse =>
            VInstance c <$>
              match el with
              | Element _ _ chs => init_loop (_parse types) chs ∅
              | CharacterData _ _ => init_loop (_parse types) [] ∅
              end
        | _ => Raise (AttributeError "__init__")
        end
    end.

(** [_parseArray(el)] (lines 88-96). *)
Definition _parseArray `{Runtime} (types : gmap string callable) (el : Node)
  : result (list value) :=
  parseArray_loop (_parse types) (childNodes el) [].

(** [BaseResponse.__init__(self, el)] (lines 101-107): the [__dict__] of
    the new instance. *)
Definition BaseResponse__init__ `{Runtime} (types : gmap string callable)
  (el : Node) : result (gmap string value) :=
  init_loop (_parse types) (childNodes el) ∅.

(** [f(el)] for an object [f] of the registry. *)
Definition call `{Runtime} (types : gmap string callable) (f : callable)
  (el : Node) : result value :=
  match f with
  | lambda_ l => call_lambda l el
  | fn_parseArray => VList <$> _parseArray types el
  | class_ c =>
      match method_owner defines_init c with
      | Some BaseResponse => VInstance c <$> BaseResponse__init__ types el
      | _ => Raise (AttributeError "__init__")
      end
  end.

(** [_types[type](el)] (line 79). *)
Definition dispatch `{Runtime} (types : gmap string callable) (type : string)
  (el : Node) : result value :=
  match types !! type with
  | None => Raise (KeyError type)
  | Some f => call types f el
  end.

(** The [__dict__] and the class of a decoded instance. *)
Definition dict_of (v : value) : option (gmap string value) :=
  match v with
  | VInstance _ dict => Some dict
  | _ => None
  end.

Definition class_of (v : value) : option cls :=
  match v with
  | VInstance c _ => Some c
  | _ => None
  end.

(** The class attribute [parses] set in a class body. *)
Definition own_parses (c : cls) : option string :=
  match c with
  | BaseResponse => None
  | User => Some "user"
  | Plan => Some "plan"
  | Repository => Some "repository"
  | PublicKey => Some "public-key"
  | Commit => Some "commit"
  | Parent => Some "parent"
  | Author => Some "author"
  | Committer => Some "committer"
  | Issue => Some "issue"
  end.

(** [t.parses], [None] when [hasattr(t, 'parses')] is false: set by the
    decorator of line 88 on [_parseArray], looked up along the bases of a
    class. *)
Definition parses (t : callable) : option string :=
  match t with
  | lambda_ _ => None
  | fn_parseArray => Some "array"
  | class_ c => head (omap own_parses (mro c))
  end.

(** The functions and classes among [globals().values()] at line 176 that
    can be stored in the registry. *)
Definition module_globals : list callable :=
  [ fn_parseArray; class_ BaseResponse; class_ User; class_ Plan;
    class_ Repository; class_ PublicKey; class_ Commit; class_ Parent;
    class_ Author; class_ Committer; class_ Issue ].

(** The dictionary literal of lines 50-56. *)
Definition _types_literal : gmap string callable :=
  <["boolean" := lambda_ lambda_boolean]>
  (<["datetime" := lambda_ lambda_datetime]>
  (<["float" := lambda_ lambda_float]>
  (<["integer" := lambda_ lambda_integer]>
  (<["string" := lambda_ lambda_string]> ∅)))).

(** The registration loop of lines 176-177. *)
Definition load_known_types (types : gmap string callable)
  (globals : list callable) : gmap string callable :=
  foldl (fun m t =>
           match parses t with
           | Some k => <[k := t]> m
           | None => m
           end) types globals.

(** [_types] once the module is loaded. *)
Definition _types : gmap string callable :=
  load_known_types _types_literal module_globals.

(** ** urllib and string helpers *)

Module urllib.

Definition always_safe : string :=
  "ABCDEFGHIJKLMNOPQRSTUVWXYZabcdefghijklmnopqrstuvwxyz0123456789_.-".

Definition contains (c : ascii) (s : string) : bool :=
  existsb (Ascii.eqb c) (list_ascii_of_string s).

Definition hex_digit (n : N) : ascii :=
  ascii_of_N (if (n <? 10)%N then 48 + n else 55 + n).

(** ['%%%02X' % ord(c)]. *)
Definition percent (c : ascii) : string :=
  let n := N_of_ascii c in
  String "%" (String (hex_digit (n / 16)) (String (hex_digit (n mod 16)) "")).

(** [urllib.quote(s, safe)] on a byte string. *)
Fixpoint quote (s : string) (safe : string) : string :=
  match s with
  | EmptyString => ""
  | String c s' =>
      (if contains c (always_safe ++ safe) then String c "" else percent c)
      ++ quote s' safe
  end.

(** [s.replace(' ', '+')]. *)
Fixpoint spaces_to_plus (s : string) : string :=
  match s with
  | EmptyString => ""
  | String c s' =>
      String (if Ascii.eqb c " " then "+"%char else c) (spaces_to_plus s')
  end.

(** [urllib.quote_plus(s)], with its default [safe='']. *)
Definition quote_plus (s : string) : string :=
  if contains " " s then spaces_to_plus (quote s " ") else quote s "".

End urllib.

(** [sep.join(parts)]. *)
Fixpoint join (sep : string) (parts : list string) : string :=
  match parts with
  | [] => ""
  | [p] => p
  | p :: rest => p ++ sep ++ join sep rest
  end.

(** [str(u)] on a [unicode] value: the implicit ASCII encoding. *)
Definition str (u : string) : result string :=
  if forallb (fun c => (N_of_ascii c <? 128)%N) (list_ascii_of_string u)
  then Ok u
  else Raise (UnicodeEncodeError u).

(** ** Code that runs against the mutable registry *)

(** A computation that reads and writes the module-level [_types] and may
    raise. *)
Definition M (A : Type) : Type :=
  gmap string callable -> result A * gmap string callable.

Definition M_ret {A} (a : A) : M A := fun types => (Ok a, types).

Definition M_bind {A B} (m : M A) (k : A -> M B) : M B := fun types =>
  match m types with
  | (Ok a, types') => k a types'
  | (Raise e, types') => (Raise e, types')
  end.

(** A computation that does not touch the registry. *)
Definition M_lift {A} (r : result A) : M A := fun types => (r, types).

(** A computation that reads the registry. *)
Definition M_read {A} (f : gmap string callable -> result A) : M A :=
  fun types => (f types, types).

(** [_types[k]]. *)
Definition getitem (k : string) : M callable := fun types =>
  match types !! k with
  | Some f => (Ok f, types)
  | None => (Raise (KeyError k), types)
  end.

(** [del _types[k]]. *)
Definition delitem (k : string) : M unit := fun types =>
  match types !! k with
  | Some _ => (Ok tt, delete k types)
  | None => (Raise (KeyError k), types)
  end.

(** [_types[k] = f]. *)
Definition setitem (k : string) (f : callable) : M unit := fun types =>
  (Ok tt, <[k := f]> types).

(** [try: return body finally: final]. *)
Definition try_finally {A} (body : M A) (final : M unit) : M A := fun types =>
  let (r, types') := body types in
  match final types' with
  | (Ok _, types'') => (r, types'')
  | (Raise e, types'') => (Raise e, types'')
  end.

Declare Scope M_scope.
Delimit Scope M_scope with M.
Notation "x <- m ;; k" := (M_bind m (fun x => k))
  (at level 100, m at next level, right associativity) : M_scope.
Notation "m ;; k" := (M_bind m (fun _ => k))
  (at level 100, right associativity) : M_scope.

(** ** Endpoints (lines 179-255) *)

Module BaseEndpoint.

Record t := {
  user : option string;
  token : option string;
  fetcher : string -> result string   (* fetcher(url).read() *)
}.

(** The URL [p] that [_fetch] hands to the fetcher (lines 187-195). *)
Definition request_url (self : t) (path : string) : string :=
  let p := "http://github.com/api/v2/xml/" ++ path in
  if truthy (user self) && truthy (token self)
  then
    let params :=
      join "&" [ "login=" ++ urllib.quote (default "" (user self)) "/";
                 "token=" ++ urllib.quote (default "" (token self)) "/" ] in
    if urllib.contains "?" path then p ++ params else p ++ "?" ++ params
  else p.

(** [_fetch] (lines 186-196). *)
Definition _fetch `{Runtime} (self : t) (path : string) : result Document :=
  body ← fetcher self (request_url self path);
  parseString body.

(** [_parsed] (lines 198-200). *)
Definition _parsed `{Runtime} (self : t) (path : string) : M value :=
  (doc <- M_lift (_fetch self path);;
   M_read (fun types => _parse types (documentElement doc)))%M.

End BaseEndpoint.

Module UserEndpoint.
Import BaseEndpoint.

Definition search `{Runtime} (self : t) (query : string) : M value :=
  _parsed self ("user/search/" ++ query).

Definition show `{Runtime} (self : t) (username : string) : M value :=
  _parsed self ("user/show/" ++ username).

Definition keys `{Runtime} (self : t) : M value :=
  _parsed self "user/keys".

End UserEndpoint.

Module RepositoryEndpoint.
Import BaseEndpoint.

Definition forUser `{Runtime} (self : t) (username : string) : M value :=
  _parsed self ("repos/show/" ++ username).

(** The [for c in doc.documentElement.childNodes] loop of [branches]
    (lines 226-228).  The right-hand side of the assignment is evaluated
    first: a node without a [localName] has no child either, so the
    last branch is never reached. *)
Fixpoint branches_loop (cs : list Node) (rv : gmap string string)
  : result (gmap string string) :=
  match cs with
  | [] => Ok rv
  | c :: rest =>
      if negb (nodeType c =? TEXT_NODE)
      then
        d ← data (firstChild c);
        s ← str d;
        match localName c with
        | Some k => branches_loop rest (<[k := s]> rv)
        | None => Raise (AttributeError "data")
        end
      else branches_loop rest rv
  end.

(** [branches] (lines 222-229). *)
Definition branches `{Runtime} (self : t) (user repo : string)
  : M (gmap string string) :=
  (doc <- M_lift (_fetch self ("repos/show/" ++ user ++ "/" ++ repo
                                 ++ "/branches"));;
   M_lift (branches_loop (childNodes (documentElement doc)) ∅))%M.

Definition search `{Runtime} (self : t) (term : string) : M value :=
  _parsed self ("repos/search/" ++ urllib.quote_plus term).

End RepositoryEndpoint.

Module CommitEndpoint.
Import BaseEndpoint.

Definition forBranch `{Runtime} (self : t) (user repo branch : string)
  : M value :=
  _parsed self (join "/" ["commits"; "list"; user; repo; branch]).

Definition forFile `{Runtime} (self : t) (user repo path branch : string)
  : M value :=
  _parsed self (join "/" ["commits"; "list"; user; repo; branch; path]).

End CommitEndpoint.

Module IssuesEndpoint.
Import BaseEndpoint.

(** The [try] body of [list] (line 253). *)
Definition list_body `{Runtime} (self : t) (user repo state : string)
  : M value :=
  _parsed self (join "/" ["issues"; "list"; user; repo; state]).

(** [list] (lines 247-255); [state] defaults to ['open']. *)
Definition list `{Runtime} (self : t) (user repo state : string) : M value :=
  (olduser <- getitem "user";;
   delitem "user";;
   try_finally (list_body self user repo state)
               (setitem "user" olduser))%M.

End IssuesEndpoint.

(** ** A reference runtime, to run the code on examples *)

Module Reference.

Definition is_space (c : ascii) : bool :=
  let n := N_of_ascii c in ((n =? 32) || ((9 <=? n) && (n <=? 13)))%N.

Definition is_digit (c : ascii) : bool :=
  let n := N_of_ascii c in ((48 <=? n) && (n <=? 57))%N.

Fixpoint lstrip (s : string) : string :=
  match s with
  | String c s' => if is_space c then lstrip s' else s
  | EmptyString => ""
  end.

Definition strip (s : string) : string :=
  String.rev (lstrip (String.rev (lstrip s))).

(** The value of a string of decimal digits read after [acc]. *)
Fixpoint digits (s : string) (acc : N) : option N :=
  match s with
  | EmptyString => Some acc
  | String c s' =>
      if is_digit c then digits s' (10 * acc + (N_of_ascii c - 48))%N
      else None
  end.

Definition unsigned (s : string) : option N :=
  match s with
  | EmptyString => None
  | _ => digits s 0%N
  end.

(** An optional sign, then the rest. *)
Definition signed (s : string) : bool * string :=
  match s with
  | String "-" s' => (true, s')
  | String "+" s' => (false, s')
  | _ => (false, s)
  end.

(** [int(text)] on ASCII decimal text. *)
Definition decimal_int (s : string) : option Z :=
  let (neg, body) := signed (strip s) in
  n ← unsigned body;
  Some (if neg then - Z.of_N n else Z.of_N n).

(** The text before the first ['.'] and the text after it. *)
Fixpoint split_point (s : string) : string * option string :=
  match s with
  | EmptyString => ("", None)
  | String "." s' => ("", Some s')
  | String c s' => let (a, b) := split_point s' in (String c a, b)
  end.

Definition of_N (neg : bool) (n : N) : spec_float :=
  match n with
  | N0 => S754_zero neg
  | Npos p => S754_finite neg p 0
  end.

(** [float(text)] on plain ASCII decimal text (digits with an optional
    sign and fraction, no exponent): the binary64 number nearest to the
    quotient of the digits by the power of ten. *)
Definition decimal_float (s : string) : option spec_float :=
  let (neg, body) := signed (strip s) in
  let (ip, fp) := split_point body in
  let fp := default "" fp in
  m ← unsigned (ip ++ fp);
  Some (SFdiv 53 1024 (of_N neg m)
              (of_N false (10 ^ N.of_nat (String.length fp))%N)).

(** A parser that knows the documents of a table of response bodies. *)
Definition table_parser (docs : list (string * Document)) (body : string)
  : result Document :=
  match List.find (fun d => String.eqb (fst d) body) docs with
  | Some d => Ok (snd d)
  | None => Raise (ExternalError "not well-formed")
  end.

Definition runtime (docs : list (string * Document)) : Runtime :=
  {| py_int := decimal_int;
     py_float := decimal_float;
     parseString := table_parser docs |}.

End Reference.

(** ** Example documents *)

Module Examples.

Definition text (s : string) : Node := CharacterData Text s.
Definition elem (ln : string) (chs : list Node) : Node := Element ln ∅ chs.
Definition typed (ln ty : string) (chs : list Node) : Node :=
  Element ln {[ "type" := ty ]} chs.

(** <x type="integer">42</x> *)
Definition x_integer : Node := typed "x" "integer" [text "42"].
(** <x type="float">2.5</x> *)
Definition x_float : Node := typed "x" "float" [text "2.5"].
(** <x type="boolean">true</x> *)
Definition x_boolean : Node := typed "x" "boolean" [text "true"].
(** <name>dustin</name> *)
Definition name_dustin : Node := elem "name" [text "dustin"].
(** <x type="yaml">1</x> *)
Definition x_yaml : Node := typed "x" "yaml" [text "1"].
(** <x type="integer"/> *)
Definition x_empty : Node := typed "x" "integer" [].


(** <public-key><title>k</title> <public-key-id>ssh-rsa</public-key-id>
    <id type="integer">7</id><note/></public-key> *)
Definition key : Node :=
  elem "public-key"
    [ elem "title" [text "k"]; text " ";
      elem "public-key-id" [text "ssh-rsa"];
      typed "id" "integer" [text "7"]; elem "note" [] ].

(** <commit><id>abc</id><tree-id>t</tree-id></commit> *)
Definition commit : Node :=
  elem "commit" [ elem "id" [text "abc"]; elem "tree-id" [text "t"] ].

(** <user><name>a</name><name>b</name></user> *)
Definition twice_named : Node :=
  elem "user" [ elem "name" [text "a"]; elem "name" [text "b"] ].

(** <user>schacon</user> *)
Definition user_login : Node := elem "user" [text "schacon"].

(** <branches><master>sha1</master><dev>sha2</dev></branches> *)
Definition branches_doc : Document :=
  {| documentElement :=
       elem "branches" [ text " "; elem "master" [text "sha1"];
                         elem "dev" [text "sha2"] ] |}.

(** <issues type="array"><issue><number type="integer">1</number>
    <user>schacon</user></issue></issues> *)
Definition issues_doc : Document :=
  {| documentElement :=
       typed "issues" "array"
         [ elem "issue" [ typed "number" "integer" [text "1"];
                          elem "user" [text "schacon"] ] ] |}.

Definition rt : Runtime :=
  Reference.runtime [ ("<branches/>", branches_doc);
                      ("<issues/>", issues_doc) ].

(** A page fetcher that answers every URL with the same body. *)
Definition serve (body : string) : BaseEndpoint.t :=
  {| BaseEndpoint.user := None; BaseEndpoint.token := None;
     BaseEndpoint.fetcher := fun _ => Ok body |}.

(** A page fetcher that fails, reporting the URL it was asked for. *)
Definition offline : BaseEndpoint.t :=
  {| BaseEndpoint.user := None; BaseEndpoint.token := None;
     BaseEndpoint.fetcher := fun url => Raise (ExternalError url) |}.

End Examples.

(** ** Notions used in the statements *)

(** The field under which [BaseResponse.__init__] stores a child
    (line 105). *)
Definition field_name (ch : Node) : string :=
  replace_hyphens (default "" (localName ch)).

(** The characters of an escaped query: those [urllib] never escapes, and
    the two it writes itself. *)
Definition url_char (c : ascii) : bool :=
  urllib.contains c (urllib.always_safe ++ "%+").

(** Two kinds decode an element alike: both raise the same exception, or
    both return an instance, of class [c1] for the one and [c2] for the
    other, with the same [__dict__]. *)
Definition same_decoding `{Runtime} (types : gmap string callable)
  (k1 : string) (c1 : cls) (k2 : string) (c2 : cls) (el : Node) : Prop :=
  (forall e, dispatch types k1 el = Raise e <-> dispatch types k2 el = Raise e)
  /\
  (forall dict, dispatch types k1 el = Ok (VInstance c1 dict) <->
                dispatch types k2 el = Ok (VInstance c2 dict)) /\
  (forall v, dispatch types k1 el = Ok v -> class_of v = Some c1) /\
  (forall v, dispatch types k2 el = Ok v -> class_of v = Some c2).

(** An element and the nodes below it, in document order. *)
Fixpoint nodes (n : Node) : list Node :=
  n :: match n with
       | Element _ _ chs => flat_map nodes chs
       | CharacterData _ _ => []
       end.

(** A node names [k]: by its tag, by its [type] attribute or by its
    text. *)
Definition names_kind (k : string) (n : Node) : bool :=
  match n with
  | Element ln attrs _ =>
      String.eqb ln k || bool_decide (attrs !! "type" = Some k)
  | CharacterData _ d => String.eqb d k
  end.

(** The values that an object of the registry returns. *)
Definition value_of (f : callable) (v : value) : Prop :=
  match f with
  | lambda_ lambda_string | lambda_ lambda_datetime => exists s, v = VUnicode s
  | lambda_ lambda_integer => exists n, v = VInt n
  | lambda_ lambda_float => exists x, v = VFloat x
  | lambda_ lambda_boolean => exists b, v = VBool b
  | fn_parseArray => exists l, v = VList l
  | class_ c => exists dict, v = VInstance c dict
  end.

(** A result with its exception rewritten. *)
Definition exn_map {A} (f : exn -> exn) (r : result A) : result A :=
  match r with
  | Ok a => Ok a
  | Raise e => Raise (f e)
  end.

(** The "Can't parse" exception when [k] is not among the known kinds. *)
Definition drop_known (k : string) (e : exn) : exn :=
  match e with
  | Exception x known => Exception x (known ∖ {[k]})
  | _ => e
  end.

(** Text that [str] accepts. *)
Definition ascii_only (s : string) : bool :=
  forallb (fun c => (N_of_ascii c <? 128)%N) (list_ascii_of_string s).

(** ** Display forms (lines 109-173) *)

(** What [__repr__] takes from the interpreter: the conversions
    ['%s' % v] and ['%d' % v] of a decoded value, which may raise, and
    [str] of a class object. *)
Class Formatting := {
  format_s : value -> result string;
  format_d : value -> result string;
  str_class : cls -> string
}.

(** [self.<name>] for a name that no response class defines: the entry
    of the instance [__dict__]. *)
Definition getattr (dict : gmap string value) (name : string)
  : result value :=
  match dict !! name with
  | Some v => Ok v
  | None => Raise (AttributeError name)
  end.

(** The [__repr__] written in the body of class [owner], run on an
    instance of class [c] with the given [__dict__]; [None] for a class
    whose body has no [__repr__]. *)
Definition repr_body `{Formatting} (owner c : cls)
  (dict : gmap string value) : option (result string) :=
  match owner with
  | BaseResponse => Some (Ok ("<<" ++ str_class c ++ ">>"))
  | User =>
      Some (n ← getattr dict "name"; s ← format_s n;
            Ok ("<<User " ++ s ++ ">>"))
  | Plan =>
      Some (n ← getattr dict "name"; s ← format_s n;
            Ok ("<<Plan " ++ s ++ ">>"))
  | Repository =>
      Some (o ← getattr dict "owner"; n ← getattr dict "name";
            so ← format_s o; sn ← format_s n;
            Ok ("<<Repository " ++ so ++ "/" ++ sn ++ ">>"))
  | PublicKey =>
      Some (t ← getattr dict "title"; s ← format_s t;
            Ok ("<<Public key " ++ s ++ ">>"))
  | Commit =>
      Some (i ← getattr dict "id"; s ← format_s i;
            Ok ("<<Commit: " ++ s ++ ">>"))
  | Issue =>
      Some (n ← getattr dict "number"; s ← format_d n;
            Ok ("<<Issue #" ++ s ++ ">>"))
  | Parent | Author | Committer => None
  end.

(** [self.__repr__()] on an instance of [c]: the first [__repr__] along
    the bases of [c]. *)
Definition __repr__ `{Formatting} (c : cls) (dict : gmap string value)
  : result string :=
  match head (omap (fun owner => repr_body owner c dict) (mro c)) with
  | Some r => r
  | None => Raise (AttributeError "__repr__")
  end.

(** [v.__repr__()] for a decoded value that is an instance. *)
Definition display `{Formatting} (v : value) : option (result string) :=
  match v with
  | VInstance c dict => Some (__repr__ c dict)
  | _ => None
  end.

(** A formatting for the examples: text as it is, integers in decimal
    digits. *)
Module ReferenceFormat.

Fixpoint digits_of (fuel : nat) (n : N) (acc : string) : string :=
  match fuel with
  | O => acc
  | S fuel =>
      let acc := String (ascii_of_N (48 + n mod 10)) acc in
      if (n <? 10)%N then acc else digits_of fuel (n / 10)%N acc
  end.

Definition decimal (z : Z) : string :=
  let n := Z.abs_N z in
  (if z <? 0 then "-" else "") ++ digits_of (S (N.to_nat (N.log2 n))) n "".

Definition formatting : Formatting :=
  {| format_s := fun v =>
       match v with
       | VUnicode s => Ok s
       | VInt n => Ok (decimal n)
       | VBool b => Ok (if b then "True" else "False")
       | _ => Ok "..."
       end;
     format_d := fun v =>
       match v with
       | VInt n => Ok (decimal n)
       | VBool b => Ok (if b then "1" else "0")
       | _ => Raise (ValueError "%d")
       end;
     str_class := fun _ => "<class>" |}.

End ReferenceFormat.

(** ** More example documents *)

Module MoreExamples.
Import Examples.

(** The [__dict__] of the instance that [key] decodes to. *)
Definition key_dict : gmap string value :=
  <["id" := VInt 7]>
    (<["public_key_id" := VUnicode "ssh-rsa"]>
       (<["title" := VUnicode "k"]> ∅)).

(** The [__dict__] of the instance that [commit] decodes to. *)
Definition commit_dict : gmap string value :=
  <["tree_id" := VUnicode "t"]> (<["id" := VUnicode "abc"]> ∅).

(** <l type="array"><a>1</a><x type="yaml">1</x><b>2</b></l> *)
Definition broken_list : Node :=
  typed "l" "array" [ elem "a" [text "1"]; x_yaml; elem "b" [text "2"] ].

(** <thing><type>user</type><name>n</name></thing> *)
Definition marked : Node :=
  elem "thing" [ elem "type" [text "user"]; elem "name" [text "n"] ].

(** <x type="string">ab<b/>cd</x> *)
Definition mixed : Node :=
  typed "x" "string" [ text "ab"; elem "b" []; text "cd" ].

(** <branches><master>sha1</master><dev/></branches> *)
Definition bad_branches_doc : Document :=
  {| documentElement :=
       elem "branches" [ elem "master" [text "sha1"]; elem "dev" [] ] |}.

Definition rt : Runtime :=
  Reference.runtime [ ("<branches/>", branches_doc);
                      ("<bad/>", bad_branches_doc) ].

(** An endpoint with credentials. *)
Definition signed_in : BaseEndpoint.t :=
  {| BaseEndpoint.user := Some "dustin"; BaseEndpoint.token := Some "s3c/r&t";
     BaseEndpoint.fetcher := fun url => Raise (ExternalError url) |}.

End MoreExamples.

(** * Properties *)

(** ** The decoder, step by step *)

Section Decoder.
Context `{Runtime}.
Implicit Types (types : gmap string callable) (el ch : Node).

(** [_parse] is the three steps of its source: find the kind, raise
    when there is none, call the registered object. *)
Lemma _parse_unfold types el :
  _parse types el =
    type ← find_type types el;
    if negb (truthy type) then Raise (Exception el (dom types))
    else dispatch types (default "" type) el.
Proof.
  destruct el as [ln attrs chs | k d].
  - cbn. destruct (find_type types _) as [ty | e]; cbn; [| reflexivity].
    destruct (negb (truthy ty)); [reflexivity |].
    unfold dispatch.
    destruct (types !! default "" ty) as [[l | | c] |]; reflexivity.
  - unfold dispatch. cbn.
    destruct (types !! "string") as [[l | | c] |]; reflexivity.
Qed.

Lemma _parse_kind types el kind :
  find_type types el = Ok (Some kind) -> kind <> "" ->
  _parse types el = dispatch types kind el.
Proof.
  intros Hty Hne. rewrite _parse_unfold, Hty. cbn.
  destruct (String.eqb_spec kind ""); [contradiction | reflexivity].
Qed.

Lemma find_type_attribute types el kind :
  attributes el ≫= (.!! "type") = Some kind ->
  find_type types el = Ok (Some kind).
Proof. intros Ha. unfold find_type. rewrite Ha. reflexivity. Qed.

Lemma literal_kind_not_empty kind :
  is_Some (_types_literal !! kind) -> kind <> "".
Proof. intros [f Hf] ->. vm_compute in Hf. discriminate. Qed.

Lemma literal_is_lambda kind f :
  _types_literal !! kind = Some f -> exists l, f = lambda_ l.
Proof.
  unfold _types_literal. intros Hf.
  repeat (rewrite lookup_insert in Hf; case_decide;
          [simplify_eq; eauto |]).
  rewrite lookup_empty in Hf. discriminate.
Qed.

(** C2. An element with a [type] attribute that names one of the
    scalar kinds of the registry and with a text child decodes to the
    primitive of that kind: the text itself for "string" and for
    "datetime", what [int] and [float] make of the text for "integer"
    and "float" (their [ValueError] when they refuse it), and for
    "boolean" the truth value of [text == 'true']. *)
Theorem typed_scalar_decoding types el kind t :
  attributes el ≫= (.!! "type") = Some kind ->
  types !! kind = _types_literal !! kind ->
  firstChild el = Some (CharacterData Text t) ->
  (kind = "string" -> _parse types el = Ok (VUnicode t)) /\
  (kind = "integer" ->
   _parse types el = match py_int t with
                     | Some n => Ok (VInt n)
                     | None => Raise (ValueError t)
                     end) /\
  (kind = "float" ->
   _parse types el = match py_float t with
                     | Some f => Ok (VFloat f)
                     | None => Raise (ValueError t)
                     end) /\
  (kind = "datetime" -> _parse types el = Ok (VUnicode t)) /\
  (kind = "boolean" ->
   _parse types el = Ok (VBool (bool_decide (t = "true")))).
Proof.
  intros Hattr Hreg Hchild.
  assert (Hcall : forall l, _types_literal !! kind = Some (lambda_ l) ->
                            _parse types el = call_lambda l el).
  { intros l Hl.
    rewrite (_parse_kind types el kind).
    - unfold dispatch. rewrite Hreg, Hl. reflexivity.
    - by apply find_type_attribute.
    - apply literal_kind_not_empty. eauto. }
  repeat split; intros ->.
  - rewrite (Hcall lambda_string) by reflexivity.
    unfold call_lambda. rewrite Hchild. reflexivity.
  - rewrite (Hcall lambda_integer) by reflexivity.
    unfold call_lambda. rewrite Hchild. reflexivity.
  - rewrite (Hcall lambda_float) by reflexivity.
    unfold call_lambda. rewrite Hchild. reflexivity.
  - rewrite (Hcall lambda_datetime) by reflexivity.
    unfold call_lambda. rewrite Hchild. reflexivity.
  - rewrite (Hcall lambda_boolean) by reflexivity.
    unfold call_lambda. rewrite Hchild. cbn. do 2 f_equal.
    destruct (String.eqb_spec t "true") as [-> | Hne].
    + reflexivity.
    + symmetry. by apply bool_decide_eq_false.
Qed.

(** C10. An element without any child node whose kind resolves to one
    of the scalar kinds does not decode to a value: the converter reads
    [.data] of a first child that does not exist and raises. *)
Theorem childless_scalar_raises types el kind :
  childNodes el = [] ->
  find_type types el = Ok (Some kind) ->
  is_Some (_types_literal !! kind) ->
  types !! kind = _types_literal !! kind ->
  _parse types el = Raise (AttributeError "data").
Proof.
  intros Hch Hty Hlit Hreg.
  rewrite (_parse_kind types el kind Hty)
    by (by apply literal_kind_not_empty).
  destruct Hlit as [f Hf]. destruct (literal_is_lambda _ _ Hf) as [l ->].
  unfold dispatch. rewrite Hreg, Hf. cbn.
  unfold call_lambda, firstChild. rewrite Hch. reflexivity.
Qed.

(** C4, as amended. An element with no [type] attribute, a tag name
    that is not registered and at most one child node is given the
    kind "string": with the string converter registered, it decodes to
    the text of its child when that child is a character-data node, and
    raises an attribute error when there is no child or the child is an
    element.  The "Can't parse" error is not raised. *)
Theorem untyped_leaf_defaults_to_string types el :
  attributes el ≫= (.!! "type") = None ->
  from_option (registered types) false (localName el) = false ->
  (length (childNodes el) <= 1)%nat ->
  types !! "string" = Some (lambda_ lambda_string) ->
  find_type types el = Ok (Some "string") /\
  _parse types el = match firstChild el with
                    | Some (CharacterData _ t) => Ok (VUnicode t)
                    | _ => Raise (AttributeError "data")
                    end.
Proof.
  intros Hattr Hname Hlen Hstr.
  assert (Hty : find_type types el = Ok (Some "string")).
  { unfold find_type. rewrite Hattr, Hname.
    rewrite bool_decide_eq_false_2 by lia. reflexivity. }
  split; [exact Hty |].
  rewrite (_parse_kind types el "string" Hty) by discriminate.
  unfold dispatch. rewrite Hstr. cbn. unfold call_lambda.
  destruct (firstChild el) as [[ln a chs | k d] |]; reflexivity.
Qed.

End Decoder.

(** ** Children with content, arrays and records *)

Section Children.
Context `{Runtime}.
Implicit Types (types : gmap string callable) (el ch : Node).

(** The children that the two loops decode are the elements that have
    at least one child node: text nodes are excluded by their node type,
    comments and the like, and empty elements, by their missing first
    child. *)
Lemma has_content_element ch :
  has_content ch = true <->
  exists ln attrs c chs, ch = Element ln attrs (c :: chs).
Proof.
  split.
  - destruct ch as [ln attrs [| c chs] | [] d]; cbn; try discriminate.
    intros _. eauto.
  - intros (ln & attrs & c & chs & ->). reflexivity.
Qed.

Lemma has_content_localName ch :
  has_content ch = true -> exists ln, localName ch = Some ln.
Proof.
  intros (ln & attrs & c & chs & ->)%has_content_element. cbn. eauto.
Qed.

Lemma no_content_text_or_empty ch :
  has_content ch = false <-> nodeType ch = TEXT_NODE \/ childNodes ch = [].
Proof.
  destruct ch as [ln attrs [| c chs] | [] d]; cbn; split; intros Hc;
    try discriminate; try (by right); try (by left); try reflexivity;
    destruct Hc; discriminate.
Qed.


(** The loop of [_parseArray] appends to [rv] the decoding of each
    child with content, in order, and raises as soon as one of them
    raises. *)
Lemma parseArray_loop_spec (parse : Node -> result value) chs rv vs :
  parseArray_loop parse chs rv = Ok vs <->
  exists ws, vs = (rv ++ ws)%list /\
             Forall2 (fun ch v => parse ch = Ok v)
                     (List.filter has_content chs) ws.
Proof.
  revert rv. induction chs as [| ch chs IH]; intros rv; cbn.
  - split.
    + intros [= ->]. exists []. by rewrite app_nil_r.
    + intros (ws & -> & Hws). inversion Hws. by rewrite app_nil_r.
  - destruct (has_content ch); [| apply IH].
    destruct (parse ch) as [v | e] eqn:Hv; cbn.
    + rewrite IH. split.
      * intros (ws & -> & Hws). exists (v :: ws).
        rewrite <- app_assoc. split; [reflexivity |]. by constructor.
      * intros (ws & -> & Hws). inversion Hws as [| ? v' ? ws' Hv' Hws']. subst.
        assert (v' = v) as -> by congruence.
        exists ws'. by rewrite <- app_assoc.
    + split; [discriminate |].
      intros (ws & _ & Hws). inversion Hws. congruence.
Qed.


(** [s.replace('-', '_')]: same length, every hyphen an underscore,
    every other character unchanged. *)
Lemma replace_hyphens_get s n :
  String.get n (replace_hyphens s) =
  (fun c => if Ascii.eqb c "-" then "_"%char else c) <$> String.get n s.
Proof.
  revert n. induction s as [| c s IH]; intros [| n]; cbn; try reflexivity.
  apply IH.
Qed.

Lemma replace_hyphens_length s :
  String.length (replace_hyphens s) = String.length s.
Proof. induction s as [| c s IH]; cbn; congruence. Qed.

Lemma replace_hyphens_no_hyphen s n :
  String.get n (replace_hyphens s) <> Some "-"%char.
Proof.
  rewrite replace_hyphens_get.
  destruct (String.get n s) as [c |]; cbn; [| discriminate].
  destruct (Ascii.eqb_spec c "-"); congruence.
Qed.

Section InitLoop.
Variable parse : Node -> result value.
Implicit Types (chs : list Node) (d dict : gmap string value).

Lemma init_loop_app chs1 chs2 d :
  init_loop parse (chs1 ++ chs2) d =
  init_loop parse chs1 d ≫= init_loop parse chs2.
Proof.
  revert d. induction chs1 as [| ch chs1 IH]; intros d; cbn;
    [reflexivity |].
  destruct (has_content ch); [| apply IH].
  destruct (localName ch) as [ln |]; [| reflexivity].
  destruct (parse ch) as [v | e]; cbn; [apply IH | reflexivity].
Qed.

Lemma init_loop_cons ch chs d dict :
  has_content ch = true ->
  init_loop parse (ch :: chs) d = Ok dict ->
  exists v, parse ch = Ok v /\
            init_loop parse chs (<[field_name ch := v]> d) = Ok dict.
Proof.
  intros Hc. cbn. rewrite Hc.
  destruct (has_content_localName ch Hc) as [ln Hln].
  unfold field_name. rewrite Hln. cbn.
  destruct (parse ch) as [v | e]; cbn; [eauto | discriminate].
Qed.

Lemma init_loop_skip ch chs d :
  has_content ch = false ->
  init_loop parse (ch :: chs) d = init_loop parse chs d.
Proof. intros Hc. cbn. rewrite Hc. reflexivity. Qed.

(** The loop returns when every child with content decodes. *)
Lemma init_loop_total chs d vs :
  Forall2 (fun ch v => parse ch = Ok v) (List.filter has_content chs) vs ->
  exists dict, init_loop parse chs d = Ok dict.
Proof.
  revert d vs. induction chs as [| ch chs IH]; intros d vs Hvs.
  - cbn. eauto.
  - cbn in Hvs |- *. destruct (has_content ch) eqn:Hc; [| eauto].
    inversion Hvs as [| ? v ? vs' Hv Hvs']. subst.
    destruct (has_content_localName ch Hc) as [ln ->].
    rewrite Hv. cbn. eauto.
Qed.

Lemma init_loop_decodes chs d dict :
  init_loop parse chs d = Ok dict ->
  exists vs, Forall2 (fun ch v => parse ch = Ok v)
                     (List.filter has_content chs) vs.
Proof.
  revert d. induction chs as [| ch chs IH]; intros d Hd.
  - exists []. constructor.
  - cbn. destruct (has_content ch) eqn:Hc.
    + apply init_loop_cons in Hd as (v & Hv & Hd); [| done].
      destruct (IH _ Hd) as [vs Hvs]. exists (v :: vs). by constructor.
    + rewrite init_loop_skip in Hd by done. eauto.
Qed.

(** The fields at the end: those at the start and one for each child
    with content. *)
Lemma init_loop_dom chs d dict k :
  init_loop parse chs d = Ok dict ->
  k ∈ dom dict <->
  k ∈ dom d \/
  exists ch, In ch chs /\ has_content ch = true /\ field_name ch = k.
Proof.
  revert d. induction chs as [| ch chs IH]; intros d Hd.
  - cbn in Hd. injection Hd as <-. split; [by left |].
    intros [Hk | (ch & [] & _)]. done.
  - destruct (has_content ch) eqn:Hc.
    + apply init_loop_cons in Hd as (v & Hv & Hd); [| done].
      rewrite (IH _ Hd), dom_insert, elem_of_union, elem_of_singleton.
      split.
      * intros [[-> | Hk] | (ch' & Hin & Hc' & Hn)].
        -- right. exists ch. cbn. eauto.
        -- by left.
        -- right. exists ch'. cbn. eauto.
      * intros [Hk | (ch' & [<- | Hin] & Hc' & Hn)].
        -- left. by right.
        -- left. by left.
        -- right. eauto.
    + rewrite init_loop_skip in Hd by done. rewrite (IH _ Hd).
      split.
      * intros [Hk | (ch' & Hin & Hc' & Hn)]; [by left |].
        right. exists ch'. cbn. eauto.
      * intros [Hk | (ch' & [<- | Hin] & Hc' & Hn)]; [by left | |].
        -- congruence.
        -- right. eauto.
Qed.

(** A field that no later child with content is stored under keeps
    its value. *)
Lemma init_loop_lookup_ne chs d dict k :
  init_loop parse chs d = Ok dict ->
  (forall ch, In ch chs -> has_content ch = true -> field_name ch <> k) ->
  dict !! k = d !! k.
Proof.
  revert d. induction chs as [| ch chs IH]; intros d Hd Hne.
  - cbn in Hd. by injection Hd as <-.
  - destruct (has_content ch) eqn:Hc.
    + apply init_loop_cons in Hd as (v & Hv & Hd); [| done].
      rewrite (IH _ Hd) by (intros; apply Hne; cbn; eauto).
      apply lookup_insert_ne, Hne; cbn; eauto.
    + rewrite init_loop_skip in Hd by done.
      apply (IH _ Hd). intros; apply Hne; cbn; eauto.
Qed.

(** What the loop does with one child with content: decode it and
    store the result under its field name, then go on. *)
Lemma init_loop_store pre ch post d dict :
  has_content ch = true ->
  init_loop parse (pre ++ ch :: post) d = Ok dict ->
  exists v d1,
    parse ch = Ok v /\
    init_loop parse (pre ++ [ch]) d = Ok d1 /\
    d1 !! field_name ch = Some v /\
    init_loop parse post d1 = Ok dict.
Proof.
  intros Hc Hd. rewrite init_loop_app in Hd.
  destruct (init_loop parse pre d) as [d0 | e] eqn:Hpre; [| discriminate].
  cbn in Hd. apply init_loop_cons in Hd as (v & Hv & Hd); [| done].
  exists v, (<[field_name ch := v]> d0). split; [done |].
  split; [| split; [apply lookup_insert_eq | done]].
  rewrite init_loop_app, Hpre. cbn. rewrite Hc.
  destruct (has_content_localName ch Hc) as [ln Hln].
  unfold field_name. rewrite Hln, Hv. reflexivity.
Qed.

End InitLoop.

(** C6. In an element decoded as a record, each child with content is
    decoded and stored as the field named by its tag name with the
    hyphens replaced by underscores ([field_name]), and the field keeps
    that value unless a later child is stored under the same name; the
    fields of the record are those of the children with content, so
    that text nodes and empty children leave none.  The record is built
    when each child with content decodes. *)
Theorem record_fields types el kind c :
  find_type types el = Ok (Some kind) -> kind <> "" ->
  types !! kind = Some (class_ c) ->
  let content := List.filter has_content (childNodes el) in
  (forall vs, Forall2 (fun ch v => _parse types ch = Ok v) content vs ->
              exists dict, _parse types el = Ok (VInstance c dict)) /\
  (forall r, _parse types el = Ok r ->
     exists dict,
       r = VInstance c dict /\
       (forall k, k ∈ dom dict <->
                  exists ch, In ch content /\ field_name ch = k) /\
       (forall pre ch post,
          childNodes el = (pre ++ ch :: post)%list ->
          has_content ch = true ->
          exists ln v d,
            localName ch = Some ln /\
            field_name ch = replace_hyphens ln /\
            _parse types ch = Ok v /\
            init_loop (_parse types) (pre ++ [ch]) ∅ = Ok d /\
            d !! replace_hyphens ln = Some v /\
            init_loop (_parse types) post d = Ok dict /\
            ((forall ch', In ch' post -> has_content ch' = true ->
                          field_name ch' <> replace_hyphens ln) ->
             dict !! replace_hyphens ln = Some v))).
Proof.
  intros Hty Hne Hreg content.
  assert (Hp : _parse types el =
               VInstance c <$> BaseResponse__init__ types el).
  { rewrite (_parse_kind types el kind Hty Hne).
    unfold dispatch. rewrite Hreg. cbn. by destruct c. }
  unfold BaseResponse__init__ in Hp. split.
  - intros vs Hvs.
    destruct (init_loop_total (_parse types) (childNodes el) ∅ vs Hvs)
      as [dict Hd].
    exists dict. rewrite Hp, Hd. reflexivity.
  - intros r Hr. rewrite Hp in Hr.
    destruct (init_loop _ _ _) as [dict | e] eqn:Hd; [| discriminate].
    injection Hr as <-. exists dict. split; [reflexivity |]. split.
    + intros k. rewrite (init_loop_dom _ _ _ _ k Hd), dom_empty.
      split.
      * intros [Hk | (ch & Hin & Hc & Hn)];
          [by apply not_elem_of_empty in Hk |].
        exists ch. split; [| done]. apply filter_In. by split.
      * intros (ch & [Hin Hc]%filter_In & Hn). right. eauto.
    + intros pre ch post Hchs Hc. rewrite Hchs in Hd.
      destruct (init_loop_store _ pre ch post ∅ dict Hc Hd)
        as (v & d1 & Hv & Hd1 & Hl & Hpost).
      destruct (has_content_localName ch Hc) as [ln Hln].
      assert (Hfn : field_name ch = replace_hyphens ln)
        by (unfold field_name; by rewrite Hln).
      exists ln, v, d1. rewrite <- Hfn.
      repeat (split; [done |]).
      intros Hlater.
      by rewrite (init_loop_lookup_ne _ post d1 dict _ Hpost Hlater).
Qed.

End Children.

(** ** Kinds that borrow the decoding of another kind *)

Section Variants.
Context `{Runtime}.
Implicit Types (types : gmap string callable) (el : Node).

(** Every response class runs [BaseResponse.__init__]. *)
Lemma init_inherited c : method_owner defines_init c = Some BaseResponse.
Proof. by destruct c. Qed.

(** [Parent], [Author] and [Committer] define no [__repr__] and show
    themselves as [Commit] and [User] do. *)
Lemma repr_inherited :
  method_owner defines_repr Parent = Some Commit /\
  method_owner defines_repr Author = Some User /\
  method_owner defines_repr Committer = Some User.
Proof. by repeat split. Qed.

Lemma call_class types c el :
  call types (class_ c) el = VInstance c <$> BaseResponse__init__ types el.
Proof. cbn. by rewrite init_inherited. Qed.

Lemma classes_decode_alike types k1 c1 k2 c2 el :
  types !! k1 = Some (class_ c1) -> types !! k2 = Some (class_ c2) ->
  same_decoding types k1 c1 k2 c2 el.
Proof.
  intros H1 H2. unfold same_decoding, dispatch.
  rewrite H1, H2, !call_class.
  destruct (BaseResponse__init__ types el) as [d | e]; cbn.
  - repeat split; intros; simplify_eq; done.
  - repeat split; intros; simplify_eq; done.
Qed.

(** "parent", "author" and "committer" are entries of the registry of
    their own, next to "commit" and "user", and an element decoded under
    "parent" gets the fields and values it gets under "commit", one
    decoded under "author" or "committer" those it gets under "user";
    the instances differ by their class. *)
Lemma variants_share_fields :
  (_types !! "parent" = Some (class_ Parent) /\
   _types !! "author" = Some (class_ Author) /\
   _types !! "committer" = Some (class_ Committer) /\
   _types !! "commit" = Some (class_ Commit) /\
   _types !! "user" = Some (class_ User)) /\
  (Parent <> Commit /\ Author <> User /\ Committer <> User) /\
  forall el,
    same_decoding _types "parent" Parent "commit" Commit el /\
    same_decoding _types "author" Author "user" User el /\
    same_decoding _types "committer" Committer "user" User el.
Proof.
  split; [by repeat split |]. split; [by repeat split |].
  intros el. split; [| split]; by apply classes_decode_alike.
Qed.

End Variants.

(** ** Escaping *)

Section Escaping.
Import urllib.

Local Abbreviation chars := list_ascii_of_string.

Lemma chars_app (a b : string) : chars (a ++ b) = (chars a ++ chars b)%list.
Proof. induction a as [| c a IH]; simpl; [reflexivity | by rewrite IH]. Qed.

Lemma spaces_to_plus_app (a b : string) :
  spaces_to_plus (a ++ b) = spaces_to_plus a ++ spaces_to_plus b.
Proof. induction a as [| c a IH]; simpl; [reflexivity | by rewrite IH]. Qed.

Lemma quote_char_plain (c : ascii) :
  forallb url_char
    (chars (if contains c (always_safe ++ "") then String c "" else percent c))
  = true.
Proof. destruct c as [[] [] [] [] [] [] [] []]; reflexivity. Qed.

Lemma quote_char_plus (c : ascii) :
  forallb url_char
    (chars (spaces_to_plus
              (if contains c (always_safe ++ " ") then String c ""
               else percent c)))
  = true.
Proof. destruct c as [[] [] [] [] [] [] [] []]; reflexivity. Qed.

(** [quote_plus] leaves nothing but letters, digits, [_.-], [%] and [+]. *)
Lemma quote_plus_url_chars (s : string) :
  forallb url_char (chars (quote_plus s)) = true.
Proof.
  unfold quote_plus. destruct (contains " " s).
  - induction s as [| c s IH]; [reflexivity |].
    cbn [quote]. rewrite spaces_to_plus_app, chars_app, forallb_app, IH.
    by rewrite quote_char_plus.
  - induction s as [| c s IH]; [reflexivity |].
    cbn [quote]. rewrite chars_app, forallb_app, IH.
    by rewrite quote_char_plain.
Qed.

End Escaping.

(** ** Endpoints *)

Section Endpoints.
Context `{Runtime}.
Implicit Types (types : gmap string callable) (self : BaseEndpoint.t).

Lemma str_inv t s : str t = Ok s -> s = t.
Proof. unfold str. by destruct (forallb _ _); intros [=]. Qed.

Lemma not_text_node c :
  negb (nodeType c =? TEXT_NODE) = true <-> nodeType c <> TEXT_NODE.
Proof. rewrite negb_true_iff. apply Z.eqb_neq. Qed.

Import RepositoryEndpoint.

Lemma branches_loop_cons c cs rv rv' :
  nodeType c <> TEXT_NODE ->
  branches_loop (c :: cs) rv = Ok rv' ->
  exists ln t, localName c = Some ln /\ data (firstChild c) = Ok t /\
               str t = Ok t /\
               branches_loop cs (<[ln := t]> rv) = Ok rv'.
Proof.
  intros Hc%not_text_node. cbn. rewrite Hc.
  destruct (data (firstChild c)) as [t | e]; [| discriminate]. cbn.
  destruct (str t) as [s | e] eqn:Hs; [| discriminate]. cbn.
  apply str_inv in Hs as Hst. subst s.
  destruct (localName c) as [ln |]; [| discriminate]. eauto 10.
Qed.

Lemma branches_loop_skip c cs rv :
  nodeType c = TEXT_NODE ->
  branches_loop (c :: cs) rv = branches_loop cs rv.
Proof. intros Hc. cbn. rewrite Hc. reflexivity. Qed.

Lemma branches_loop_app cs1 cs2 rv :
  branches_loop (cs1 ++ cs2) rv =
  branches_loop cs1 rv ≫= branches_loop cs2.
Proof.
  revert rv. induction cs1 as [| c cs1 IH]; intros rv; cbn;
    [reflexivity |].
  destruct (negb _); [| apply IH].
  destruct (data (firstChild c)) as [t | e]; [| reflexivity]. cbn.
  destruct (str t) as [s | e]; [| reflexivity]. cbn.
  destruct (localName c); [apply IH | reflexivity].
Qed.

Lemma branches_loop_total cs rv :
  (forall c, In c cs -> nodeType c <> TEXT_NODE ->
             exists k t, firstChild c = Some (CharacterData k t) /\
                         str t = Ok t) ->
  exists rv', branches_loop cs rv = Ok rv'.
Proof.
  revert rv. induction cs as [| c cs IH]; intros rv Hcs; cbn; [eauto |].
  destruct (negb _) eqn:Hc; [| apply IH; intros; apply Hcs; cbn; eauto].
  apply not_text_node in Hc.
  destruct (Hcs c) as (k & t & Hf & Hs); [by left | done |].
  rewrite Hf. cbn. rewrite Hs. cbn.
  destruct c as [ln attrs chs | k' d]; [| discriminate]. cbn.
  apply IH. intros; apply Hcs; cbn; eauto.
Qed.

Lemma branches_loop_dom cs rv rv' k :
  branches_loop cs rv = Ok rv' ->
  k ∈ dom rv' <->
  k ∈ dom rv \/
  exists c, In c cs /\ nodeType c <> TEXT_NODE /\ localName c = Some k.
Proof.
  revert rv. induction cs as [| c cs IH]; intros rv Hrv.
  - cbn in Hrv. injection Hrv as <-. split; [by left |].
    intros [Hk | (c & [] & _)]. done.
  - destruct (decide (nodeType c = TEXT_NODE)) as [Hc | Hc].
    + rewrite branches_loop_skip in Hrv by done. rewrite (IH _ Hrv).
      split.
      * intros [Hk | (c' & Hin & Hc' & Hn)]; [by left |].
        right. exists c'. cbn. eauto.
      * intros [Hk | (c' & [<- | Hin] & Hc' & Hn)]; [by left | done |].
        right. eauto.
    + apply branches_loop_cons in Hrv as (ln & t & Hln & Ht & Hs & Hrv);
        [| done].
      rewrite (IH _ Hrv), dom_insert, elem_of_union, elem_of_singleton.
      split.
      * intros [[-> | Hk] | (c' & Hin & Hc' & Hn)].
        -- right. exists c. cbn. eauto.
        -- by left.
        -- right. exists c'. cbn. eauto.
      * intros [Hk | (c' & [<- | Hin] & Hc' & Hn)].
        -- left. by right.
        -- left. left. congruence.
        -- right. eauto.
Qed.

Lemma branches_loop_lookup_ne cs rv rv' k :
  branches_loop cs rv = Ok rv' ->
  (forall c, In c cs -> nodeType c <> TEXT_NODE -> localName c <> Some k) ->
  rv' !! k = rv !! k.
Proof.
  revert rv. induction cs as [| c cs IH]; intros rv Hrv Hne.
  - cbn in Hrv. by injection Hrv as <-.
  - destruct (decide (nodeType c = TEXT_NODE)) as [Hc | Hc].
    + rewrite branches_loop_skip in Hrv by done.
      apply (IH _ Hrv). intros; apply Hne; cbn; eauto.
    + apply branches_loop_cons in Hrv as (ln & t & Hln & Ht & Hs & Hrv);
        [| done].
      rewrite (IH _ Hrv) by (intros; apply Hne; cbn; eauto).
      apply lookup_insert_ne. intros ->. by apply (Hne c); cbn; eauto.
Qed.

Lemma branches_loop_store pre c post rv rv' :
  nodeType c <> TEXT_NODE ->
  branches_loop (pre ++ c :: post) rv = Ok rv' ->
  exists ln t rv1,
    localName c = Some ln /\ data (firstChild c) = Ok t /\
    branches_loop (pre ++ [c]) rv = Ok rv1 /\
    rv1 !! ln = Some t /\
    branches_loop post rv1 = Ok rv'.
Proof.
  intros Hc Hrv. rewrite branches_loop_app in Hrv.
  destruct (branches_loop pre rv) as [rv0 | e] eqn:Hpre; [| discriminate].
  cbn [mbind result_bind] in Hrv.
  apply branches_loop_cons in Hrv as (ln & t & Hln & Ht & Hs & Hrv);
    [| done].
  exists ln, t, (<[ln := t]> rv0). repeat (split; [done |]).
  split; [| split; [apply lookup_insert_eq | done]].
  rewrite branches_loop_app, Hpre. cbn.
  apply not_text_node in Hc. rewrite Hc, Ht. cbn. rewrite Hs. cbn.
  by rewrite Hln.
Qed.

(** C7. [branches] builds its result from the children of the root
    element of the fetched document alone: each child that is not a
    text node is stored under its tag name with the text of its first
    child as value (the value stays unless a later child has the same
    tag name), and the keys are the tag names of these children.  The
    registry is neither read nor written: the result is the same under
    every registry, whatever it holds.  The call returns when each such
    child starts with ASCII text. *)
Theorem branches_is_a_plain_mapping self user repo types :
  let path := "repos/show/" ++ user ++ "/" ++ repo ++ "/branches" in
  let run := RepositoryEndpoint.branches self user repo in
  snd (run types) = types /\
  (forall types', fst (run types') = fst (run types)) /\
  (forall e, BaseEndpoint._fetch self path = Raise e ->
             fst (run types) = Raise e) /\
  forall doc, BaseEndpoint._fetch self path = Ok doc ->
    let cs := childNodes (documentElement doc) in
    fst (run types) = branches_loop cs ∅ /\
    ((forall c, In c cs -> nodeType c <> TEXT_NODE ->
                exists k t, firstChild c = Some (CharacterData k t) /\
                            str t = Ok t) ->
     exists rv, fst (run types) = Ok rv) /\
    forall rv, fst (run types) = Ok rv ->
      (forall k, k ∈ dom rv <->
                 exists c, In c cs /\ nodeType c <> TEXT_NODE /\
                           localName c = Some k) /\
      (forall pre c post,
         cs = (pre ++ c :: post)%list -> nodeType c <> TEXT_NODE ->
         exists ln t rv1,
           localName c = Some ln /\ data (firstChild c) = Ok t /\
           branches_loop (pre ++ [c]) ∅ = Ok rv1 /\
           rv1 !! ln = Some t /\
           branches_loop post rv1 = Ok rv /\
           ((forall c', In c' post -> nodeType c' <> TEXT_NODE ->
                        localName c' <> Some ln) ->
            rv !! ln = Some t)).
Proof.
  intros path run.
  assert (Hrun : forall types0,
            run types0 =
            (BaseEndpoint._fetch self path
               ≫= (fun doc => branches_loop
                                (childNodes (documentElement doc)) ∅),
             types0)).
  { intros types0. unfold run, branches, M_bind, M_lift. fold path.
    by destruct (BaseEndpoint._fetch self path). }
  split; [by rewrite Hrun |]. split; [intros; by rewrite !Hrun |].
  split; [intros e He; by rewrite Hrun, He |].
  intros doc Hdoc cs.
  assert (Hfst : fst (run types) = branches_loop cs ∅)
    by (by rewrite Hrun, Hdoc).
  split; [exact Hfst |]. rewrite Hfst. split.
  - intros Hcs. by apply branches_loop_total.
  - intros rv Hrv. split.
    + intros k. rewrite (branches_loop_dom _ _ _ k Hrv), dom_empty.
      split; [| by right].
      by intros [Hk%not_elem_of_empty |].
    + intros pre c post Hsplit Hc. rewrite Hsplit in Hrv.
      destruct (branches_loop_store pre c post ∅ rv Hc Hrv)
        as (ln & t & rv1 & Hln & Ht & Hrv1 & Hl & Hpost).
      exists ln, t, rv1. repeat (split; [done |]).
      intros Hlater.
      by rewrite (branches_loop_lookup_ne post rv1 rv ln Hpost Hlater).
Qed.

(** [list] as a whole: the fetch and the decoding under the registry
    without "user", and the registry it started from. *)
Lemma issues_list_registry_unchanged self user repo state types :
  is_Some (types !! "user") ->
  snd (IssuesEndpoint.list self user repo state types) = types /\
  fst (IssuesEndpoint.list self user repo state types) =
    (doc ← BaseEndpoint._fetch self
             (join "/" ["issues"; "list"; user; repo; state]);
     _parse (delete "user" types) (documentElement doc)).
Proof.
  intros [olduser Hold].
  unfold IssuesEndpoint.list, M_bind, getitem, delitem, try_finally,
    setitem, IssuesEndpoint.list_body, BaseEndpoint._parsed, M_bind,
    M_lift, M_read.
  rewrite Hold.
  assert (Hback : <["user" := olduser]> (delete "user" types) = types).
  { rewrite insert_delete_eq. by apply insert_id. }
  destruct (BaseEndpoint._fetch self _) as [doc | e]; cbn;
    by rewrite Hold, Hback.
Qed.

(** C1. With "user" registered, [IssuesEndpoint.list] leaves the
    registry as it found it, with the same set of kinds, whether it
    returns or raises (the fetch, the XML parser or the decoder); what
    it returns or raises is what the fetch and the decoding give under
    the registry without "user". *)
Theorem issues_list_restores_registry self user repo state types :
  is_Some (types !! "user") ->
  let during := delete "user" types in
  let r := IssuesEndpoint.list self user repo state types in
  snd r = types /\
  dom (snd r) = dom types /\
  during !! "user" = None /\
  dom during = dom types ∖ {["user"]} /\
  fst r =
    (doc ← BaseEndpoint._fetch self
             (join "/" ["issues"; "list"; user; repo; state]);
     _parse during (documentElement doc)).
Proof.
  intros Huser during r.
  destruct (issues_list_registry_unchanged self user repo state types Huser)
    as [Hsnd Hfst].
  subst r during. rewrite Hsnd.
  split; [reflexivity |]. split; [reflexivity |].
  split; [apply lookup_delete_eq |].
  split; [apply dom_delete_L | exact Hfst].
Qed.

(** The URL that reaches the fetcher, read off a fetcher that fails with
    the URL it is given. *)
Lemma offline_request path types :
  fst (BaseEndpoint._parsed Examples.offline path types) =
  Raise (ExternalError ("http://github.com/api/v2/xml/" ++ path)).
Proof. reflexivity. Qed.

(** What the two search operations ask the fetcher for: the query as it
    is for the users, the escaped query for the repositories. *)
Lemma search_requests q types :
  fst (UserEndpoint.search Examples.offline q types) =
  Raise (ExternalError ("http://github.com/api/v2/xml/user/search/" ++ q)) /\
  fst (RepositoryEndpoint.search Examples.offline q types) =
  Raise (ExternalError ("http://github.com/api/v2/xml/repos/search/"
                          ++ urllib.quote_plus q)).
Proof. split; apply offline_request. Qed.

End Endpoints.

(** ** The properties on the example documents *)

Module Checks.
Import Examples.

Example hyphens_public_key : replace_hyphens "public-key" = "public_key".
Proof. reflexivity. Qed.

Example float_text : @_parse rt _types x_float
                     = Ok (VFloat (S754_finite false 5629499534213120 (-51))).
Proof. reflexivity. Qed.

Example boolean_text :
  @_parse rt _types x_boolean = Ok (VBool true) /\
  @_parse rt _types (typed "x" "boolean" [text "True"]) = Ok (VBool false).
Proof. split; reflexivity. Qed.

(** Two children under one field name: the later one is the one read
    from the record. *)
Example later_child_wins :
  exists dict, @_parse rt _types twice_named = Ok (VInstance User dict) /\
               dict !! "name" = Some (VUnicode "b") /\
               dom dict = {[ "name" ]}.
Proof. eexists. repeat split; by vm_compute. Qed.

(** The root of a branch listing is nothing the decoder knows. *)
Example branches_root_is_not_decodable :
  fst (@BaseEndpoint._parsed rt (serve "<branches/>") "x" _types)
  = Raise (Exception (documentElement branches_doc) (dom _types)).
Proof. reflexivity. Qed.

(** <user>schacon</user> is a [User] without fields for the registry of
    the module, and the text "schacon" once "user" is taken out. *)
Example user_login_with_and_without_user :
  @_parse rt _types user_login = Ok (VInstance User ∅) /\
  @_parse rt (delete "user" _types) user_login = Ok (VUnicode "schacon").
Proof. split; by vm_compute. Qed.

Example issues_list_example :
  exists dict,
    @IssuesEndpoint.list rt (serve "<issues/>") "u" "r" "open" _types
    = (Ok (VList [VInstance Issue dict]), _types) /\
    dict !! "user" = Some (VUnicode "schacon") /\
    dict !! "number" = Some (VInt 1).
Proof.
  eexists. split; [| split].
  - destruct (@issues_list_registry_unchanged
                rt (serve "<issues/>") "u" "r" "open" _types) as [Hs Hf];
      [by eexists |].
    rewrite (surjective_pairing (IssuesEndpoint.list _ _ _ _ _)), Hs, Hf.
    by vm_compute.
  - by vm_compute.
  - by vm_compute.
Qed.

(** Without "user" in the registry [list] raises before it touches it. *)
Example issues_list_without_user :
  @IssuesEndpoint.list rt (serve "<issues/>") "u" "r" "open" ∅
  = (Raise (KeyError "user"), ∅).
Proof. reflexivity. Qed.

Lemma issues_list_restores_registry_witness :
  is_Some (_types !! "user") /\
  snd (@IssuesEndpoint.list rt (serve "<issues/>") "u" "r" "open" _types)
  = _types.
Proof.
  assert (Huser : is_Some (_types !! "user")) by (eexists; reflexivity).
  split; [exact Huser |].
  exact (proj1 (@issues_list_restores_registry
                  rt (serve "<issues/>") "u" "r" "open" _types Huser)).
Defined.

Lemma typed_scalar_decoding_witness :
  attributes x_integer ≫= (.!! "type") = Some "integer" /\
  _types !! "integer" = _types_literal !! "integer" /\
  firstChild x_integer = Some (CharacterData Text "42") /\
  @_parse rt _types x_integer = Ok (VInt 42).
Proof.
  assert (Ha : attributes x_integer ≫= (.!! "type") = Some "integer")
    by reflexivity.
  assert (Hr : _types !! "integer" = _types_literal !! "integer")
    by reflexivity.
  assert (Hc : firstChild x_integer = Some (CharacterData Text "42"))
    by reflexivity.
  repeat (split; [assumption |]).
  destruct (@typed_scalar_decoding rt _types x_integer "integer" "42"
              Ha Hr Hc) as (_ & Hint & _).
  rewrite (Hint eq_refl). reflexivity.
Defined.


Lemma untyped_leaf_defaults_to_string_witness :
  attributes name_dustin ≫= (.!! "type") = None /\
  from_option (registered _types) false (localName name_dustin) = false /\
  (length (childNodes name_dustin) <= 1)%nat /\
  _types !! "string" = Some (lambda_ lambda_string) /\
  @_parse rt _types name_dustin = Ok (VUnicode "dustin").
Proof.
  assert (Ha : attributes name_dustin ≫= (.!! "type") = None)
    by reflexivity.
  assert (Hn : from_option (registered _types) false
                 (localName name_dustin) = false) by reflexivity.
  assert (Hl : (length (childNodes name_dustin) <= 1)%nat) by (cbn; lia).
  assert (Hs : _types !! "string" = Some (lambda_ lambda_string))
    by reflexivity.
  repeat (split; [assumption |]).
  exact (proj2 (@untyped_leaf_defaults_to_string rt _types name_dustin
                  Ha Hn Hl Hs)).
Defined.

Lemma record_fields_witness :
  find_type _types key = Ok (Some "public-key") /\
  "public-key" <> "" /\
  _types !! "public-key" = Some (class_ PublicKey) /\
  exists dict, @_parse rt _types key = Ok (VInstance PublicKey dict) /\
               dict !! "public_key_id" = Some (VUnicode "ssh-rsa").
Proof.
  assert (Ht : find_type _types key = Ok (Some "public-key"))
    by reflexivity.
  assert (Hne : "public-key" <> "") by discriminate.
  assert (Hr : _types !! "public-key" = Some (class_ PublicKey))
    by reflexivity.
  repeat (split; [assumption |]).
  destruct (@record_fields rt _types key "public-key" PublicKey Ht Hne Hr)
    as [Hruns Hres].
  destruct (Hruns [VUnicode "k"; VUnicode "ssh-rsa"; VInt 7])
    as [dict Hdict]; [repeat constructor |].
  exists dict. split; [exact Hdict |].
  destruct (Hres _ Hdict) as (dict' & [= <-] & _ & Hstore).
  destruct (Hstore [elem "title" [text "k"]; text " "]
              (elem "public-key-id" [text "ssh-rsa"])
              [typed "id" "integer" [text "7"]; elem "note" []]
              eq_refl eq_refl)
    as (ln & v & d & [= <-] & _ & Hv & _ & _ & _ & Hkeeps).
  vm_compute in Hv. injection Hv as <-.
  apply Hkeeps. intros ch' [<- | [<- | []]] Hc; [| discriminate].
  vm_compute. discriminate.
Defined.

Lemma branches_is_a_plain_mapping_witness :
  exists rv,
    fst (@RepositoryEndpoint.branches rt (serve "<branches/>") "u" "r" ∅)
    = Ok rv /\
    rv !! "master" = Some "sha1" /\ rv !! "dev" = Some "sha2".
Proof.
  destruct (@branches_is_a_plain_mapping rt (serve "<branches/>") "u" "r" ∅)
    as (_ & _ & _ & Hdoc).
  destruct (Hdoc branches_doc eq_refl) as (Hloop & _ & _).
  exists {[ "master" := "sha1"; "dev" := "sha2" ]}.
  split; [rewrite Hloop |]; by vm_compute.
Defined.

Lemma childless_scalar_raises_witness :
  childNodes x_empty = [] /\
  find_type _types x_empty = Ok (Some "integer") /\
  is_Some (_types_literal !! "integer") /\
  _types !! "integer" = _types_literal !! "integer" /\
  @_parse rt _types x_empty = Raise (AttributeError "data").
Proof.
  assert (Hc : childNodes x_empty = []) by reflexivity.
  assert (Ht : find_type _types x_empty = Ok (Some "integer"))
    by reflexivity.
  assert (Hl : is_Some (_types_literal !! "integer"))
    by (eexists; reflexivity).
  assert (Hr : _types !! "integer" = _types_literal !! "integer")
    by reflexivity.
  repeat (split; [assumption |]).
  exact (@childless_scalar_raises rt _types x_empty "integer" Hc Ht Hl Hr).
Defined.

(** C4, as stated, does not hold: <name>dustin</name> has no [type]
    attribute, "name" is not a registered kind and the element has one
    child, and it decodes to the string "dustin". *)
Lemma untyped_leaf_is_decoded :
  ~ (attributes name_dustin ≫= (.!! "type") = None ->
     registered _types "name" = false ->
     (length (childNodes name_dustin) <= 1)%nat ->
     exists e, @_parse rt _types name_dustin = Raise e).
Proof.
  intros Hclaim.
  destruct Hclaim as [e He]; [reflexivity | reflexivity | cbn; lia |].
  vm_compute in He. discriminate.
Qed.

(** C5, as stated, does not hold: the kind of <x type="yaml">1</x> is
    "yaml", which the registry does not know, and decoding raises
    [KeyError], not the exception that carries the element and the
    known kinds. *)
Lemma unregistered_kind_is_not_a_parse_error :
  ~ (find_type _types x_yaml = Ok (Some "yaml") ->
     _types !! "yaml" = None ->
     exists el known,
       @_parse rt _types x_yaml = Raise (Exception el known)).
Proof.
  intros Hclaim.
  destruct Hclaim as (el & known & He); [reflexivity | reflexivity |].
  vm_compute in He. discriminate.
Qed.

(** C8. [UserEndpoint.search] hands the query to the fetcher as it is,
    where [RepositoryEndpoint.search] escapes it: for the query "a b"
    the one asks for ".../user/search/a b", the other for
    ".../repos/search/a+b". *)
Lemma user_search_does_not_escape :
  urllib.quote_plus "a b" = "a+b" /\
  fst (@UserEndpoint.search rt offline "a b" _types)
  = Raise (ExternalError "http://github.com/api/v2/xml/user/search/a b") /\
  fst (@RepositoryEndpoint.search rt offline "a b" _types)
  = Raise (ExternalError "http://github.com/api/v2/xml/repos/search/a+b").
Proof. repeat split; reflexivity. Qed.

End Checks.

(** * Further properties of the decoder *)

(** ** Induction on documents *)

Section Trees.

Lemma Node_tree_ind (P : Node -> Prop) :
  (forall el, Forall P (childNodes el) -> P el) -> forall el, P el.
Proof.
  intros step.
  fix IH 1. intros el. apply step.
  destruct el as [ln attrs chs | k d]; cbn; [| constructor].
  induction chs as [| ch chs IHchs]; constructor; [apply IH | exact IHchs].
Qed.

Lemma nodes_self el : In el (nodes el).
Proof. destruct el; by left. Qed.

Lemma nodes_child el ch x :
  In ch (childNodes el) -> In x (nodes ch) -> In x (nodes el).
Proof.
  intros Hch Hx. destruct el as [ln attrs chs | k d]; [| destruct Hch].
  right. apply in_flat_map. eauto.
Qed.

Lemma nodes_children (Q : Node -> Prop) el :
  Forall Q (nodes el) ->
  Q el /\ Forall (fun ch => Forall Q (nodes ch)) (childNodes el).
Proof.
  rewrite !Forall_forall. intros HQ. split.
  - apply HQ, list_elem_of_In, nodes_self.
  - intros ch Hch%list_elem_of_In. apply Forall_forall.
    intros x Hx%list_elem_of_In.
    apply HQ, list_elem_of_In. by apply (nodes_child el ch).
Qed.

End Trees.

(** ** Loops over the children *)

Section Loops.
Implicit Types (chs : list Node) (parse : Node -> result value).

Lemma parseArray_loop_app parse chs1 chs2 rv :
  parseArray_loop parse (chs1 ++ chs2) rv =
  parseArray_loop parse chs1 rv ≫= parseArray_loop parse chs2.
Proof.
  revert rv. induction chs1 as [| ch chs1 IH]; intros rv; cbn;
    [reflexivity |].
  destruct (has_content ch); [| apply IH].
  destruct (parse ch) as [v | e]; cbn; [apply IH | reflexivity].
Qed.

(** When a loop raises, a child with content raised that exception. *)
Lemma parseArray_loop_raise parse chs rv e :
  parseArray_loop parse chs rv = Raise e ->
  exists ch, In ch chs /\ has_content ch = true /\ parse ch = Raise e.
Proof.
  revert rv. induction chs as [| ch chs IH]; intros rv; cbn;
    [discriminate |].
  destruct (has_content ch) eqn:Hc.
  - destruct (parse ch) as [v | e'] eqn:Hv; cbn.
    + intros (ch' & Hin & Hr)%IH. eauto.
    + intros [= ->]. eauto.
  - intros (ch' & Hin & Hr)%IH. eauto.
Qed.

Lemma init_loop_raise parse chs d e :
  init_loop parse chs d = Raise e ->
  exists ch, In ch chs /\ has_content ch = true /\ parse ch = Raise e.
Proof.
  revert d. induction chs as [| ch chs IH]; intros d; cbn;
    [discriminate |].
  destruct (has_content ch) eqn:Hc.
  - destruct (has_content_localName ch Hc) as [ln ->].
    destruct (parse ch) as [v | e'] eqn:Hv; cbn.
    + intros (ch' & Hin & Hr)%IH. eauto.
    + intros [= ->]. eauto.
  - intros (ch' & Hin & Hr)%IH. eauto.
Qed.

(** Two decoders that agree on the children up to a rewriting of the
    exceptions make the loops agree up to that rewriting. *)
Lemma parseArray_loop_exn_map (f : exn -> exn) parse1 parse2 chs rv :
  Forall (fun ch => parse1 ch = exn_map f (parse2 ch)) chs ->
  parseArray_loop parse1 chs rv = exn_map f (parseArray_loop parse2 chs rv).
Proof.
  intros Hchs. revert rv.
  induction Hchs as [| ch chs Hch _ IH]; intros rv; cbn; [reflexivity |].
  destruct (has_content ch); [| apply IH].
  rewrite Hch. destruct (parse2 ch) as [v | e]; cbn; [apply IH | reflexivity].
Qed.

Lemma init_loop_exn_map (f : exn -> exn) parse1 parse2 chs d :
  Forall (fun ch => parse1 ch = exn_map f (parse2 ch)) chs ->
  init_loop parse1 chs d = exn_map f (init_loop parse2 chs d).
Proof.
  intros Hchs. revert d.
  induction Hchs as [| ch chs Hch _ IH]; intros d; cbn; [reflexivity |].
  destruct (has_content ch) eqn:Hc; [| apply IH].
  destruct (has_content_localName ch Hc) as [ln ->].
  rewrite Hch. destruct (parse2 ch) as [v | e]; cbn; [apply IH | reflexivity].
Qed.

End Loops.

(** ** What the decoder raises, and what a missing kind changes *)

Section Robustness.
Context `{Runtime}.
Implicit Types (types : gmap string callable) (el ch : Node).

Lemma data_inv (x : option Node) (d : string) :
  data x = Ok d -> exists k, x = Some (CharacterData k d).
Proof. destruct x as [[ln a chs | k d'] |]; cbn; intros [=]. subst. eauto. Qed.

Lemma data_raise (x : option Node) (e : exn) :
  data x = Raise e -> e = AttributeError "data".
Proof. destruct x as [[ln a chs | k d'] |]; cbn; by intros [=]. Qed.

(** The kind that the scan of the children returns is the one it
    started with or the text of a child named "type". *)
Lemma find_child_type_marker chs ty0 ty :
  find_child_type chs ty0 = Ok ty ->
  ty = ty0 \/
  exists m k d, In m chs /\ localName m = Some "type" /\
                firstChild m = Some (CharacterData k d) /\ ty = Some d.
Proof.
  revert ty0. induction chs as [| ch chs IH]; intros ty0; cbn.
  - intros [= ->]. by left.
  - destruct (truthy ty0); [intros [= ->]; by left |].
    case_bool_decide as Hname.
    + destruct (data (firstChild ch)) as [d |] eqn:Hd; [| discriminate].
      cbn. intros [-> | (m & k & d' & Hin & Hm)]%IH.
      * right. apply data_inv in Hd as [k Hk]. exists ch, k, d. eauto.
      * right. exists m, k, d'. split; [by right | done].
    + intros [-> | (m & k & d' & Hin & Hm)]%IH; [by left |].
      right. exists m, k, d'. split; [by right | done].
Qed.

Lemma find_child_type_raise chs ty0 e :
  find_child_type chs ty0 = Raise e -> e = AttributeError "data".
Proof.
  revert ty0. induction chs as [| ch chs IH]; intros ty0; cbn;
    [discriminate |].
  destruct (truthy ty0); [discriminate |].
  case_bool_decide; [| apply IH].
  destruct (data (firstChild ch)) as [d | e'] eqn:Hd; cbn; [apply IH |].
  intros [= <-]. by apply data_raise in Hd.
Qed.

Lemma find_type_raise types el e :
  find_type types el = Raise e -> e = AttributeError "data".
Proof.
  unfold find_type. destruct (attributes el ≫= _); [discriminate |].
  destruct (from_option _ _ _); [discriminate |].
  case_bool_decide; [apply find_child_type_raise | discriminate].
Qed.

Lemma call_lambda_raise l el e :
  call_lambda l el = Raise e ->
  e = AttributeError "data" \/ exists t, e = ValueError t.
Proof.
  unfold call_lambda.
  destruct (data (firstChild el)) as [d | e'] eqn:Hd; cbn.
  - destruct l; try discriminate.
    + destruct (py_int d); intros [=]. subst. eauto.
    + destruct (py_float d); intros [=]. subst. eauto.
  - intros [= <-]. left. by apply data_raise in Hd.
Qed.

(** A kind found for an element is "string" or is named by a node of
    the element. *)
Lemma found_kind_named types el kind :
  find_type types el = Ok (Some kind) ->
  kind = "string" \/ exists n, In n (nodes el) /\ names_kind kind n = true.
Proof.
  unfold find_type.
  destruct (attributes el ≫= _) as [v |] eqn:Hattr.
  - intros [= ->]. right. exists el. split; [apply nodes_self |].
    destruct el as [ln attrs chs | k d]; [| discriminate]. cbn in *.
    rewrite (bool_decide_eq_true_2 _ Hattr). apply orb_true_r.
  - destruct (from_option _ _ _) eqn:Hreg.
    + intros [= Hln]. right. exists el. split; [apply nodes_self |].
      destruct el as [ln attrs chs | k d]; [| discriminate]. cbn in *.
      injection Hln as ->. by rewrite String.eqb_refl.
    + case_bool_decide; [| intros [= <-]; by left].
      intros Hscan.
      apply find_child_type_marker in Hscan
        as [[=] | (m & k & d & Hin & _ & Hfirst & [= ->])].
      right. exists (CharacterData k d). split; [| apply String.eqb_refl].
      apply (nodes_child el m); [done |].
      apply (nodes_child m (CharacterData k d)); [| by left].
      unfold firstChild in Hfirst.
      destruct (childNodes m); [discriminate |].
      injection Hfirst as ->. by left.
Qed.

Lemma fmap_raise {A B} (f : A -> B) (r : result A) e :
  f <$> r = Raise e -> r = Raise e.
Proof. destruct r; cbn; by intros [=]; subst. Qed.

(** Where the two exceptions of [_parse] itself come from: the "Can't
    parse" exception from a node for which no kind was found, the
    [KeyError] from a node whose kind the registry does not have. *)
Lemma parse_raise_origin types el e :
  _parse types el = Raise e ->
  match e with
  | Exception x known =>
      In x (nodes el) /\ known = dom types /\
      exists type, find_type types x = Ok type /\ truthy type = false
  | KeyError k =>
      types !! k = None /\ k <> "" /\
      exists x, In x (nodes el) /\ find_type types x = Ok (Some k)
  | _ => True
  end.
Proof.
  revert e. induction el as [el IH] using Node_tree_ind. intros e.
  assert (Hchild : forall ch, In ch (childNodes el) ->
            _parse types ch = Raise e ->
            match e with
            | Exception x known =>
                In x (nodes el) /\ known = dom types /\
                exists type, find_type types x = Ok type /\
                             truthy type = false
            | KeyError k =>
                types !! k = None /\ k <> "" /\
                exists x, In x (nodes el) /\
                          find_type types x = Ok (Some k)
            | _ => True
            end).
  { intros ch Hin He. rewrite Forall_forall in IH.
    specialize (IH ch (proj2 (list_elem_of_In _ _) Hin) e He).
    destruct e as [x known | k | | | |]; try done.
    - destruct IH as (Hx & Hk & Hty).
      split; [by apply (nodes_child el ch) | done].
    - destruct IH as (Hk & Hne & x & Hx & Hty).
      split; [done |]. split; [done |].
      exists x. split; [by apply (nodes_child el ch) | done]. }
  rewrite _parse_unfold.
  destruct (find_type types el) as [ty | e'] eqn:Hty; cbn.
  2: { intros [= <-]. by rewrite (find_type_raise _ _ _ Hty). }
  destruct (truthy ty) eqn:Htruthy; cbn.
  2: { intros [= <-]. split; [apply nodes_self |]. split; [done |]. eauto. }
  destruct ty as [kind |]; [| discriminate]. cbn.
  assert (Hne : kind <> "").
  { intros ->. discriminate. }
  unfold dispatch.
  destruct (types !! kind) as [[l | | c] |] eqn:Hreg.
  - intros [-> | [t ->]]%call_lambda_raise; done.
  - cbn. intros (ch & Hin & _ & He)%fmap_raise%parseArray_loop_raise.
    by apply (Hchild ch).
  - rewrite call_class.
    intros (ch & Hin & _ & He)%fmap_raise%init_loop_raise.
    by apply (Hchild ch).
  - intros [= <-]. split; [done |]. split; [done |].
    exists el. split; [apply nodes_self | done].
Qed.

(** C5, as amended. When the kind found for an element is not in the
    registry, decoding raises the [KeyError] of the dictionary lookup,
    which carries the kind name alone.  The "Can't parse" exception,
    which carries the element and the known kinds, is raised when no
    kind was found for the element, and only then: whenever decoding
    raises it, it names a node of the element for which no kind was
    found, and the kinds of the registry. *)
Theorem unregistered_kind_raises_key_error types el :
  (forall kind,
     find_type types el = Ok (Some kind) -> kind <> "" ->
     types !! kind = None ->
     _parse types el = Raise (KeyError kind)) /\
  (forall type,
     find_type types el = Ok type -> truthy type = false ->
     _parse types el = Raise (Exception el (dom types))) /\
  (forall x known,
     _parse types el = Raise (Exception x known) ->
     In x (nodes el) /\ known = dom types /\
     exists type, find_type types x = Ok type /\ truthy type = false).
Proof.
  split; [| split].
  - intros kind Hty Hne Hreg.
    rewrite (_parse_kind types el kind Hty Hne).
    unfold dispatch. rewrite Hreg. reflexivity.
  - intros type Hty Hfalse.
    rewrite _parse_unfold, Hty. cbn. rewrite Hfalse. reflexivity.
  - intros x known He. exact (parse_raise_origin types el _ He).
Qed.

(** X1. A [KeyError] out of [_parse] names a kind that the registry does
    not have and that was found, not empty, for a node of the element:
    through its [type] attribute, its tag, its "type" child or the
    default. *)
Theorem key_error_names_a_missing_kind types el k :
  _parse types el = Raise (KeyError k) ->
  types !! k = None /\ k <> "" /\
  exists x, In x (nodes el) /\ find_type types x = Ok (Some k).
Proof. intros He. exact (parse_raise_origin types el _ He). Qed.

Lemma find_type_delete types k el :
  names_kind k el = false ->
  find_type (delete k types) el = find_type types el.
Proof.
  intros Hk. unfold find_type.
  destruct (attributes el ≫= _); [reflexivity |].
  destruct el as [ln attrs chs | kd d]; [| reflexivity]. cbn in *.
  apply orb_false_iff in Hk as [Hln%String.eqb_neq _].
  unfold registered. by rewrite lookup_delete_ne.
Qed.

Lemma exn_map_fmap {A B} (f : exn -> exn) (g : A -> B) (r : result A) :
  g <$> exn_map f r = exn_map f (g <$> r).
Proof. by destruct r. Qed.

(** X2. Taking a kind other than "string" out of the registry does not
    change the decoding of an element none of whose nodes names that
    kind (by its tag, its [type] attribute or its text): the result is
    the same value or the same exception, but for the set of known kinds
    that the "Can't parse" exception reports. *)
Theorem unregistering_unnamed_kind types k el :
  k <> "string" ->
  Forall (fun n => names_kind k n = false) (nodes el) ->
  _parse (delete k types) el = exn_map (drop_known k) (_parse types el).
Proof.
  intros Hstr. induction el as [el IH] using Node_tree_ind.
  intros Hnodes.
  assert (Hall : forall n, In n (nodes el) -> names_kind k n = false).
  { intros n Hn%list_elem_of_In. revert n Hn. by apply Forall_forall. }
  apply nodes_children in Hnodes as [Hel Hchs].
  assert (Hrec : Forall (fun ch => _parse (delete k types) ch =
                                   exn_map (drop_known k) (_parse types ch))
                        (childNodes el)).
  { rewrite Forall_forall in IH, Hchs |- *. intros ch Hch.
    by apply IH, Hchs. }
  rewrite !_parse_unfold, (find_type_delete _ _ _ Hel).
  destruct (find_type types el) as [ty | e] eqn:Hty; cbn.
  2: { by rewrite (find_type_raise _ _ _ Hty). }
  destruct (truthy ty) eqn:Htruthy; cbn.
  2: { by rewrite dom_delete_L. }
  destruct ty as [kind |]; [| discriminate]. cbn.
  assert (Hne : kind <> k).
  { intros ->. destruct (found_kind_named _ _ _ Hty) as [-> | (n & Hn & Hk)];
      [done |]. rewrite (Hall n Hn) in Hk. discriminate. }
  unfold dispatch. rewrite lookup_delete_ne by done.
  destruct (types !! kind) as [[l | | c] |]; [| | | reflexivity].
  - cbn. destruct (call_lambda l el) as [v | e] eqn:Hl; [reflexivity |].
    by apply call_lambda_raise in Hl as [-> | [t ->]].
  - cbn [call]. unfold _parseArray.
    by rewrite (parseArray_loop_exn_map (drop_known k) _ (_parse types)),
      exn_map_fmap.
  - rewrite !call_class. unfold BaseResponse__init__.
    by rewrite (init_loop_exn_map (drop_known k) _ (_parse types)),
      exn_map_fmap.
Qed.

End Robustness.

(** ** The shape of what is decoded *)

Section Shapes.
Context `{Runtime}.
Implicit Types (types : gmap string callable) (el ch : Node).

Lemma _parse_ok_kind types el v :
  _parse types el = Ok v ->
  exists kind f, find_type types el = Ok (Some kind) /\ kind <> "" /\
                 types !! kind = Some f /\ call types f el = Ok v.
Proof.
  rewrite _parse_unfold.
  destruct (find_type types el) as [[kind |] | e]; cbn;
    [| discriminate | discriminate].
  destruct (String.eqb_spec kind "") as [-> | Hne]; cbn; [discriminate |].
  unfold dispatch. destruct (types !! kind) as [f |] eqn:Hf; [| discriminate].
  intros Hv. exists kind, f. eauto.
Qed.

(** X3. A decoded value has the type of the converter registered for the
    kind found for its element: text for "string" and "datetime", an
    integer, a float, a truth value, a list for [_parseArray], and for a
    class an instance of that very class. *)
Theorem decoded_value_has_the_type_of_its_kind types el v :
  _parse types el = Ok v ->
  exists kind f, find_type types el = Ok (Some kind) /\
                 types !! kind = Some f /\ value_of f v.
Proof.
  intros Hok.
  apply _parse_ok_kind in Hok as (kind & f & Hty & _ & Hf & Hv).
  exists kind, f. split; [done |]. split; [done |].
  destruct f as [l | | c].
  - cbn in Hv. unfold call_lambda in Hv.
    destruct (data (firstChild el)) as [d |]; [| discriminate].
    cbn in Hv. destruct l; cbn.
    + injection Hv as <-. eauto.
    + destruct (py_int d); [| discriminate]. injection Hv as <-. eauto.
    + destruct (py_float d); [| discriminate]. injection Hv as <-. eauto.
    + injection Hv as <-. eauto.
    + injection Hv as <-. eauto.
  - cbn in Hv. destruct (_parseArray types el); [| discriminate].
    injection Hv as <-. cbn. eauto.
  - rewrite call_class in Hv.
    destruct (BaseResponse__init__ types el); [| discriminate].
    injection Hv as <-. cbn. eauto.
Qed.

Lemma instance_from_init types el c dict :
  _parse types el = Ok (VInstance c dict) ->
  BaseResponse__init__ types el = Ok dict.
Proof.
  intros Hok.
  apply _parse_ok_kind in Hok as (kind & f & _ & _ & _ & Hv).
  destruct f as [l | | c'].
  - cbn in Hv. unfold call_lambda in Hv.
    destruct (data (firstChild el)) as [d |]; [| discriminate].
    cbn in Hv. destruct l; try discriminate.
    + destruct (py_int d); discriminate.
    + destruct (py_float d); discriminate.
  - cbn in Hv. destruct (_parseArray types el); discriminate.
  - rewrite call_class in Hv.
    destruct (BaseResponse__init__ types el); [| discriminate].
    by injection Hv as _ ->.
Qed.

(** X4. No field name of a decoded instance contains a hyphen, and each
    is the tag name of a child with content up to its hyphens. *)
Theorem field_names_have_no_hyphen types el c dict k :
  _parse types el = Ok (VInstance c dict) ->
  k ∈ dom dict ->
  (forall n, String.get n k <> Some "-"%char) /\
  exists ch ln, In ch (childNodes el) /\ has_content ch = true /\
                localName ch = Some ln /\ k = replace_hyphens ln /\
                String.length k = String.length ln.
Proof.
  intros Hd%instance_from_init Hk. unfold BaseResponse__init__ in Hd.
  apply (init_loop_dom _ _ _ _ k Hd) in Hk
    as [Hk%not_elem_of_empty | (ch & Hin & Hc & <-)]; [done |].
  destruct (has_content_localName ch Hc) as [ln Hln].
  unfold field_name. rewrite Hln. cbn. split.
  - intros n. apply replace_hyphens_no_hyphen.
  - exists ch, ln. repeat (split; [done |]). apply replace_hyphens_length.
Qed.

Lemma decoded_prefix types (pre : list Node) :
  (forall c, In c pre -> has_content c = true ->
             exists v, _parse types c = Ok v) ->
  exists vs, Forall2 (fun ch v => _parse types ch = Ok v)
                     (List.filter has_content pre) vs.
Proof.
  induction pre as [| c pre IH]; intros Hpre; cbn.
  - exists []. constructor.
  - destruct IH as [vs Hvs]; [intros; apply Hpre; cbn; eauto |].
    destruct (has_content c) eqn:Hc; [| eauto].
    destruct (Hpre c) as [v Hv]; [by left | done |].
    exists (v :: vs). by constructor.
Qed.

(** X5. No partial result: when a child with content raises and the
    children with content before it decode, an array and a record raise
    the exception of that child. *)
Theorem first_failing_child_fails_the_container types el kind pre ch post e :
  find_type types el = Ok (Some kind) -> kind <> "" ->
  types !! kind = Some fn_parseArray \/
    (exists c, types !! kind = Some (class_ c)) ->
  childNodes el = (pre ++ ch :: post)%list ->
  (forall c, In c pre -> has_content c = true ->
             exists v, _parse types c = Ok v) ->
  has_content ch = true ->
  _parse types ch = Raise e ->
  _parse types el = Raise e.
Proof.
  intros Hty Hne Hreg Hsplit Hpre Hc He.
  rewrite (_parse_kind types el kind Hty Hne). unfold dispatch.
  destruct (decoded_prefix types pre Hpre) as [vs Hvs].
  destruct Hreg as [-> | [c ->]].
  - cbn. unfold _parseArray.
    rewrite Hsplit, parseArray_loop_app.
    assert (parseArray_loop (_parse types) pre [] = Ok vs) as ->.
    { apply parseArray_loop_spec. exists vs. by split. }
    cbn. by rewrite Hc, He.
  - rewrite call_class. unfold BaseResponse__init__.
    rewrite Hsplit, init_loop_app.
    destruct (init_loop_total (_parse types) pre ∅ vs Hvs) as [d ->].
    cbn. rewrite Hc.
    destruct (has_content_localName ch Hc) as [ln ->]. by rewrite He.
Qed.

Lemma parseArray_loop_no_content parse (chs : list Node) rv :
  Forall (fun ch => has_content ch = false) chs ->
  parseArray_loop parse chs rv = Ok rv.
Proof.
  induction 1 as [| ch chs Hc _ IH]; cbn; [reflexivity |]. by rewrite Hc.
Qed.

Lemma init_loop_no_content parse (chs : list Node) d :
  Forall (fun ch => has_content ch = false) chs ->
  init_loop parse chs d = Ok d.
Proof.
  induction 1 as [| ch chs Hc _ IH]; cbn; [reflexivity |]. by rewrite Hc.
Qed.

(** X6. An element of the array kind or of a class whose children are
    all text nodes or nodes without children (none at all, at the
    least) decodes to the empty list, or to an instance without fields:
    it does not raise, and its text is dropped. *)
Theorem container_without_content_is_empty types el kind :
  find_type types el = Ok (Some kind) -> kind <> "" ->
  Forall (fun ch => has_content ch = false) (childNodes el) ->
  (types !! kind = Some fn_parseArray -> _parse types el = Ok (VList [])) /\
  (forall c, types !! kind = Some (class_ c) ->
             _parse types el = Ok (VInstance c ∅)).
Proof.
  intros Hty Hne Hchs.
  rewrite (_parse_kind types el kind Hty Hne). unfold dispatch. split.
  - intros ->. cbn. unfold _parseArray.
    by rewrite parseArray_loop_no_content.
  - intros c ->. rewrite call_class. unfold BaseResponse__init__.
    by rewrite init_loop_no_content.
Qed.

Lemma find_child_type_skip (pre rest : list Node) :
  Forall (fun c => localName c <> Some "type") pre ->
  find_child_type (pre ++ rest) None = find_child_type rest None.
Proof.
  induction 1 as [| c pre Hc _ IH]; cbn; [reflexivity |].
  by rewrite bool_decide_eq_false_2.
Qed.

Lemma find_type_container types el :
  attributes el ≫= (.!! "type") = None ->
  from_option (registered types) false (localName el) = false ->
  (1 < length (childNodes el))%nat ->
  find_type types el = find_child_type (childNodes el) None.
Proof.
  intros Hattr Hname Hlen. unfold find_type. rewrite Hattr, Hname.
  by rewrite bool_decide_eq_true_2 by lia.
Qed.

(** X7. A container (no [type] attribute, a tag that is not registered,
    more than one child node) takes its kind from its first child named
    "type": the text that child starts with, whatever follows; when that
    child does not start with text, decoding raises. *)
Theorem container_kind_is_the_first_marker types el pre m post :
  attributes el ≫= (.!! "type") = None ->
  from_option (registered types) false (localName el) = false ->
  (1 < length (childNodes el))%nat ->
  childNodes el = (pre ++ m :: post)%list ->
  Forall (fun c => localName c <> Some "type") pre ->
  localName m = Some "type" ->
  (forall k d, firstChild m = Some (CharacterData k d) -> d <> "" ->
               _parse types el = dispatch types d el) /\
  ((forall k d, firstChild m <> Some (CharacterData k d)) ->
   _parse types el = Raise (AttributeError "data")).
Proof.
  intros Hattr Hname Hlen Hsplit Hpre Hm.
  assert (Hty : find_type types el =
                (d ← data (firstChild m); find_child_type post (Some d))).
  { rewrite (find_type_container types el Hattr Hname Hlen), Hsplit.
    rewrite (find_child_type_skip pre _ Hpre). cbn.
    by rewrite (bool_decide_eq_true_2 _ Hm). }
  split.
  - intros k d Hfirst Hd.
    apply _parse_kind; [| done]. rewrite Hty, Hfirst. cbn.
    destruct post; cbn; [done |].
    by destruct (String.eqb_spec d "").
  - intros Hnone. rewrite _parse_unfold, Hty.
    destruct (firstChild m) as [[ln a chs | k d] |]; try reflexivity.
    by destruct (Hnone k d).
Qed.

(** X8. A container without any child named "type" cannot be decoded:
    [_parse] raises the "Can't parse" exception with the element and the
    kinds of the registry. *)
Theorem container_without_marker_cannot_be_parsed types el :
  attributes el ≫= (.!! "type") = None ->
  from_option (registered types) false (localName el) = false ->
  (1 < length (childNodes el))%nat ->
  Forall (fun c => localName c <> Some "type") (childNodes el) ->
  _parse types el = Raise (Exception el (dom types)).
Proof.
  intros Hattr Hname Hlen Hchs.
  rewrite _parse_unfold, (find_type_container types el Hattr Hname Hlen).
  rewrite <- (app_nil_r (childNodes el)).
  by rewrite (find_child_type_skip _ [] Hchs).
Qed.

(** X9. A scalar converter reads the first child node alone: what
    follows it in the element changes nothing. *)
Theorem scalar_reads_the_first_child_only types ln attrs c rest kind l :
  attrs !! "type" = Some kind -> kind <> "" ->
  types !! kind = Some (lambda_ l) ->
  _parse types (Element ln attrs (c :: rest)) =
  _parse types (Element ln attrs [c]).
Proof.
  intros Hattr Hne Hreg.
  rewrite !(_parse_kind types _ kind) by
    (done || (apply find_type_attribute; exact Hattr)).
  unfold dispatch. by rewrite Hreg.
Qed.

End Shapes.

(** ** Loading the registry *)

Section Registry.
Implicit Types (types : gmap string callable) (gs : list callable).

Lemma load_known_types_snoc types gs t :
  load_known_types types (gs ++ [t]) =
  match parses t with
  | Some k => <[k := t]> (load_known_types types gs)
  | None => load_known_types types gs
  end.
Proof. unfold load_known_types. by rewrite foldl_snoc. Qed.

(** The entry of a kind after the loop: the last object of the list that
    declares the kind, the entry from before when there is none. *)
Lemma load_known_types_lookup types gs k :
  load_known_types types gs !! k =
  match last (filter (fun t => parses t = Some k) gs) with
  | Some t => Some t
  | None => types !! k
  end.
Proof.
  induction gs as [| t gs IH] using rev_ind; [reflexivity |].
  rewrite load_known_types_snoc, filter_app.
  destruct (decide (parses t = Some k)) as [Hk | Hk].
  - rewrite filter_cons_True, filter_nil by done.
    rewrite Hk, last_snoc. apply lookup_insert_eq.
  - rewrite filter_cons_False, filter_nil, app_nil_r, <- IH by done.
    destruct (parses t) as [k' |]; [| reflexivity].
    apply lookup_insert_ne. congruence.
Qed.

Lemma filter_declares_nil gs k :
  (forall t, In t gs -> parses t <> Some k) ->
  filter (fun t => parses t = Some k) gs = [].
Proof.
  induction gs as [| t gs IH]; intros Hgs; [reflexivity |].
  rewrite filter_cons_False by (apply Hgs; by left).
  apply IH. intros; apply Hgs; by right.
Qed.

(** X10. Registering replaces: after the loop of lines 176-177 a kind is
    bound to the last object of the list that declares it, and a kind
    that no object declares keeps the entry it had. *)
Theorem later_registration_replaces_earlier types gs k :
  (forall pre t post,
     gs = (pre ++ t :: post)%list -> parses t = Some k ->
     (forall t', In t' post -> parses t' <> Some k) ->
     load_known_types types gs !! k = Some t) /\
  ((forall t, In t gs -> parses t <> Some k) ->
   load_known_types types gs !! k = types !! k).
Proof.
  split.
  - intros pre t post -> Ht Hpost.
    rewrite load_known_types_lookup, filter_app, filter_cons_True by done.
    rewrite (filter_declares_nil post k Hpost).
    by rewrite (last_snoc t (filter _ pre)).
  - intros Hgs. rewrite load_known_types_lookup.
    by rewrite (filter_declares_nil gs k Hgs).
Qed.

Lemma declared_once gs k :
  NoDup (omap parses gs) ->
  (length (filter (fun t => parses t = Some k) gs) <= 1)%nat.
Proof.
  induction gs as [| t gs IH]; [cbn; lia |].
  cbn [omap list_omap].
  destruct (parses t) as [k' |] eqn:Hk'.
  - intros [Hnew Hrest]%NoDup_cons.
    destruct (decide (k' = k)) as [-> | Hne].
    + rewrite filter_cons_True by done.
      rewrite filter_declares_nil; [cbn; lia |].
      intros t' Hin Ht'. apply Hnew, list_elem_of_omap.
      exists t'. split; [by apply list_elem_of_In | done].
    + rewrite filter_cons_False by congruence. by apply IH.
  - intros Hrest. rewrite filter_cons_False by congruence. by apply IH.
Qed.

(** X11. When no two objects declare the same kind, the registry does
    not depend on the order in which [globals().values()] yields them. *)
Theorem registry_does_not_depend_on_order types gs gs' :
  NoDup (omap parses gs) -> gs ≡ₚ gs' ->
  load_known_types types gs = load_known_types types gs'.
Proof.
  intros Hnodup Hperm. apply map_eq. intros k.
  rewrite !load_known_types_lookup.
  assert (Hf : filter (fun t => parses t = Some k) gs
               ≡ₚ filter (fun t => parses t = Some k) gs')
    by (by rewrite Hperm).
  pose proof (declared_once gs k Hnodup) as Hlen.
  destruct (filter _ gs) as [| t [| t' l]]; cbn in Hlen; [| | lia].
  - by apply Permutation_nil_l in Hf as <-.
  - by apply Permutation_singleton_l in Hf as <-.
Qed.

End Registry.

(** ** More on the endpoints *)

Section Requests.
Context `{Runtime}.
Implicit Types (types : gmap string callable) (self : BaseEndpoint.t).

(** X12. Without "user" in the registry [IssuesEndpoint.list] raises the
    [KeyError] of its first line: nothing is fetched (the endpoint plays
    no part in the result) and the registry is left as it is. *)
Theorem issues_list_needs_user self user repo state types :
  types !! "user" = None ->
  IssuesEndpoint.list self user repo state types
  = (Raise (KeyError "user"), types) /\
  forall self' user' repo' state',
    IssuesEndpoint.list self' user' repo' state' types
    = IssuesEndpoint.list self user repo state types.
Proof.
  intros Huser.
  assert (Hl : forall s u r st,
            IssuesEndpoint.list s u r st types
            = (Raise (KeyError "user"), types)).
  { intros. unfold IssuesEndpoint.list, M_bind, getitem.
    by rewrite Huser. }
  split; [apply Hl |]. intros. by rewrite !Hl.
Qed.

Import RepositoryEndpoint.

Lemma branches_unfold self user repo types :
  branches self user repo types =
  (BaseEndpoint._fetch self
     ("repos/show/" ++ user ++ "/" ++ repo ++ "/branches")
     ≫= (fun doc => branches_loop (childNodes (documentElement doc)) ∅),
   types).
Proof.
  unfold branches, M_bind, M_lift.
  by destruct (BaseEndpoint._fetch self _).
Qed.

Lemma str_ascii t s : str t = Ok s -> ascii_only s = true.
Proof.
  unfold str, ascii_only.
  destruct (forallb _ (list_ascii_of_string t)) eqn:Ht; intros [=].
  by subst.
Qed.

Lemma branches_loop_values (P : string -> Prop) cs rv rv' :
  (forall t, ascii_only t = true -> P t) ->
  map_Forall (fun _ v => P v) rv ->
  branches_loop cs rv = Ok rv' ->
  map_Forall (fun _ v => P v) rv'.
Proof.
  intros HP. revert rv. induction cs as [| c cs IH]; intros rv Hrv; cbn.
  - by intros [= <-].
  - destruct (negb _); [| by apply IH].
    destruct (data (firstChild c)) as [d |]; [| discriminate]. cbn.
    destruct (str d) as [s |] eqn:Hs; [| discriminate]. cbn.
    destruct (localName c) as [k |]; [| discriminate].
    apply IH. apply map_Forall_insert_2; [| done].
    by apply HP, (str_ascii d).
Qed.

Lemma branches_loop_sources (all cs : list Node) rv rv' :
  (forall c, In c cs -> In c all) ->
  map_Forall (fun k v => exists c kd,
                In c all /\ localName c = Some k /\
                firstChild c = Some (CharacterData kd v)) rv ->
  branches_loop cs rv = Ok rv' ->
  map_Forall (fun k v => exists c kd,
                In c all /\ localName c = Some k /\
                firstChild c = Some (CharacterData kd v)) rv'.
Proof.
  revert rv. induction cs as [| c cs IH]; intros rv Hincl Hrv; cbn.
  - by intros [= <-].
  - destruct (negb _);
      [| apply IH; [intros; apply Hincl; by right | done]].
    destruct (data (firstChild c)) as [d |] eqn:Hd; [| discriminate]. cbn.
    destruct (str d) as [s |] eqn:Hs; [| discriminate]. cbn.
    destruct (localName c) as [k |] eqn:Hk; [| discriminate].
    apply IH; [intros; apply Hincl; by right |].
    apply map_Forall_insert_2; [| done].
    apply str_inv in Hs as ->. apply data_inv in Hd as [kd Hd].
    exists c, kd. split; [apply Hincl; by left | done].
Qed.

(** X13. Every value of the mapping that [branches] returns is ASCII
    text, and the first character data of a child of the root. *)
Theorem branches_values_are_ascii self user repo types rv k v :
  fst (branches self user repo types) = Ok rv ->
  rv !! k = Some v ->
  ascii_only v = true /\
  exists doc c kd,
    BaseEndpoint._fetch self
      ("repos/show/" ++ user ++ "/" ++ repo ++ "/branches") = Ok doc /\
    In c (childNodes (documentElement doc)) /\
    localName c = Some k /\ firstChild c = Some (CharacterData kd v).
Proof.
  rewrite branches_unfold. cbn [fst].
  destruct (BaseEndpoint._fetch self _) as [doc |]; [| discriminate].
  cbn. intros Hrv Hk. split.
  - by apply (branches_loop_values (fun v => ascii_only v = true)
                _ ∅ rv (fun _ H => H) (map_Forall_empty _) Hrv k v).
  - destruct (branches_loop_sources (childNodes (documentElement doc))
                _ ∅ rv (fun _ H => H) (map_Forall_empty _) Hrv k v Hk)
      as (c & kd & Hc).
    exists doc, c, kd. by split.
Qed.

(** X14. No partial mapping: when the children before it are text nodes
    or start with ASCII text, a child that is not a text node and does
    not start with character data makes [branches] raise
    [AttributeError], and one that starts with text that is not ASCII,
    [UnicodeEncodeError]. *)
Theorem branches_first_bad_child self user repo types doc pre c post :
  BaseEndpoint._fetch self
    ("repos/show/" ++ user ++ "/" ++ repo ++ "/branches") = Ok doc ->
  childNodes (documentElement doc) = (pre ++ c :: post)%list ->
  (forall c', In c' pre -> nodeType c' <> TEXT_NODE ->
              exists k t, firstChild c' = Some (CharacterData k t) /\
                          str t = Ok t) ->
  nodeType c <> TEXT_NODE ->
  ((forall k d, firstChild c <> Some (CharacterData k d)) ->
   fst (branches self user repo types) = Raise (AttributeError "data")) /\
  (forall k d, firstChild c = Some (CharacterData k d) ->
               ascii_only d = false ->
               fst (branches self user repo types)
               = Raise (UnicodeEncodeError d)).
Proof.
  intros Hdoc Hsplit Hpre Hc%not_text_node.
  rewrite branches_unfold, Hdoc. cbn [fst mbind result_bind].
  rewrite Hsplit, branches_loop_app.
  destruct (branches_loop_total pre ∅ Hpre) as [rv0 ->].
  cbn. rewrite Hc. split.
  - intros Hnone.
    destruct (firstChild c) as [[ln a chs | k d] |]; try reflexivity.
    by destruct (Hnone k d).
  - intros k d -> Hd. cbn. unfold str. fold (ascii_only d).
    by rewrite Hd.
Qed.

Lemma append_assoc (a b c : string) : (a ++ b) ++ c = a ++ b ++ c.
Proof.
  induction a as [| x a IH]; [reflexivity |].
  change (String x ((a ++ b) ++ c) = String x (a ++ b ++ c)). by f_equal.
Qed.

Lemma contains_app c a b :
  urllib.contains c (a ++ b) = urllib.contains c a || urllib.contains c b.
Proof.
  unfold urllib.contains. by rewrite chars_app, existsb_app.
Qed.

Lemma url_chars_contain c s :
  forallb url_char (list_ascii_of_string s) = true ->
  url_char c = false -> urllib.contains c s = false.
Proof.
  unfold urllib.contains. intros Hs Hc.
  induction (list_ascii_of_string s) as [| x l IH]; [reflexivity |].
  cbn in Hs |- *. apply andb_true_iff in Hs as [Hx Hl].
  rewrite (IH Hl), orb_false_r.
  destruct (Ascii.eqb_spec c x) as [-> | _]; [congruence | done].
Qed.

Lemma append_empty_r (a : string) : a ++ "" = a.
Proof.
  induction a as [| x a IH]; [reflexivity |].
  change (String x (a ++ "") = String x a). by f_equal.
Qed.

Lemma request_url_search self term :
  BaseEndpoint.request_url self ("repos/search/" ++ urllib.quote_plus term)
  = if truthy (BaseEndpoint.user self) && truthy (BaseEndpoint.token self)
    then "http://github.com/api/v2/xml/"
         ++ ("repos/search/" ++ urllib.quote_plus term)
         ++ "?login="
         ++ urllib.quote (default "" (BaseEndpoint.user self)) "/"
         ++ "&token="
         ++ urllib.quote (default "" (BaseEndpoint.token self)) "/"
    else "http://github.com/api/v2/xml/"
         ++ ("repos/search/" ++ urllib.quote_plus term).
Proof.
  assert (Hq : urllib.contains "?" (urllib.quote_plus term) = false)
    by (apply url_chars_contain; [apply quote_plus_url_chars | done]).
  unfold BaseEndpoint.request_url.
  destruct (truthy (BaseEndpoint.user self)
            && truthy (BaseEndpoint.token self)); [| reflexivity].
  rewrite contains_app, Hq. cbn [orb urllib.contains].
  cbn [join]. by rewrite !append_assoc.
Qed.

(** X15. What [RepositoryEndpoint.search] does, whatever the term: it
    calls the fetcher once, on the base URL followed by "repos/search/"
    and the escaped term, followed, when user and token are both set and
    not empty, by "?login=...&token=..." with the escaped credentials
    (the escaped term has no "?" of its own); it parses what the fetcher
    returns, decodes the root element and leaves the registry alone. *)
Theorem repository_search_request self term types :
  let url :=
    "http://github.com/api/v2/xml/"
    ++ ("repos/search/" ++ urllib.quote_plus term)
    ++ (if truthy (BaseEndpoint.user self)
           && truthy (BaseEndpoint.token self)
        then "?login="
             ++ urllib.quote (default "" (BaseEndpoint.user self)) "/"
             ++ "&token="
             ++ urllib.quote (default "" (BaseEndpoint.token self)) "/"
        else "") in
  RepositoryEndpoint.search self term types
  = (body ← BaseEndpoint.fetcher self url;
     doc ← parseString body;
     _parse types (documentElement doc),
     types) /\
  BaseEndpoint._fetch self ("repos/search/" ++ urllib.quote_plus term)
  = (body ← BaseEndpoint.fetcher self url; parseString body) /\
  urllib.contains "?" (urllib.quote_plus term) = false.
Proof.
  intros url.
  assert (Hurl : BaseEndpoint.request_url self
                   ("repos/search/" ++ urllib.quote_plus term) = url).
  { rewrite request_url_search. unfold url.
    destruct (truthy (BaseEndpoint.user self)
              && truthy (BaseEndpoint.token self)).
    - by rewrite !append_assoc.
    - by rewrite append_empty_r. }
  assert (Hfetch : BaseEndpoint._fetch self
                     ("repos/search/" ++ urllib.quote_plus term)
                   = (body ← BaseEndpoint.fetcher self url;
                      parseString body)).
  { unfold BaseEndpoint._fetch. by rewrite Hurl. }
  split; [| split; [exact Hfetch |]].
  - unfold RepositoryEndpoint.search, BaseEndpoint._parsed, M_bind, M_lift,
      M_read.
    rewrite Hfetch.
    destruct (BaseEndpoint.fetcher self url) as [body | e]; cbn;
      [| reflexivity].
    by destruct (parseString body).
  - apply url_chars_contain; [apply quote_plus_url_chars | done].
Qed.

End Requests.

(** ** Display forms *)

Section Display.
Context `{Runtime} `{Formatting}.
Implicit Types (types : gmap string callable) (el : Node).

Lemma repr_inherits dict :
  __repr__ Parent dict = __repr__ Commit dict /\
  __repr__ Author dict = __repr__ User dict /\
  __repr__ Committer dict = __repr__ User dict.
Proof. by repeat split. Qed.

Lemma display_of_class types c c' el :
  (forall dict, __repr__ c dict = __repr__ c' dict) ->
  display <$> call types (class_ c) el
  = display <$> call types (class_ c') el.
Proof.
  intros Hrepr. rewrite !call_class.
  destruct (BaseResponse__init__ types el) as [dict | e]; cbn;
    [| reflexivity].
  by rewrite Hrepr.
Qed.

(** C9, as amended. "parent", "author" and "committer" are entries of
    the registry of their own, next to "commit" and "user".  An element
    decoded under "parent" gets the fields and values it gets under
    "commit", one decoded under "author" or "committer" those it gets
    under "user" (or the two decodings raise alike).  The instances
    differ by their class and by nothing else: the display text is the
    inherited one, the same under both kinds. *)
Theorem variants_differ_in_class_only :
  (_types !! "parent" = Some (class_ Parent) /\
   _types !! "author" = Some (class_ Author) /\
   _types !! "committer" = Some (class_ Committer) /\
   _types !! "commit" = Some (class_ Commit) /\
   _types !! "user" = Some (class_ User)) /\
  (Parent <> Commit /\ Author <> User /\ Committer <> User) /\
  forall el,
    (same_decoding _types "parent" Parent "commit" Commit el /\
     display <$> dispatch _types "parent" el
     = display <$> dispatch _types "commit" el) /\
    (same_decoding _types "author" Author "user" User el /\
     display <$> dispatch _types "author" el
     = display <$> dispatch _types "user" el) /\
    (same_decoding _types "committer" Committer "user" User el /\
     display <$> dispatch _types "committer" el
     = display <$> dispatch _types "user" el).
Proof.
  split; [by repeat split |]. split; [by repeat split |].
  intros el.
  assert (Hdisplay : forall k c k' c',
            _types !! k = Some (class_ c) ->
            _types !! k' = Some (class_ c') ->
            (forall dict, __repr__ c dict = __repr__ c' dict) ->
            same_decoding _types k c k' c' el /\
            display <$> dispatch _types k el
            = display <$> dispatch _types k' el).
  { intros k c k' c' Hk Hk' Hrepr.
    split; [by apply classes_decode_alike |].
    unfold dispatch. rewrite Hk, Hk'. by apply display_of_class. }
  split; [| split]; apply Hdisplay; try reflexivity;
    intros dict; apply repr_inherits.
Qed.

(** X16. [Parent], [Author] and [Committer] have no display form of
    their own: an element decoded under "parent" shows itself as it does
    decoded under "commit" ("<<Commit: ...>>"), one decoded under
    "author" or "committer" as under "user" ("<<User ...>>"), and the
    two raise alike. *)
Theorem variants_display_like_their_base el :
  display <$> dispatch _types "parent" el
  = display <$> dispatch _types "commit" el /\
  display <$> dispatch _types "author" el
  = display <$> dispatch _types "user" el /\
  display <$> dispatch _types "committer" el
  = display <$> dispatch _types "user" el.
Proof.
  unfold dispatch.
  change (_types !! "parent") with (Some (class_ Parent)).
  change (_types !! "commit") with (Some (class_ Commit)).
  change (_types !! "author") with (Some (class_ Author)).
  change (_types !! "committer") with (Some (class_ Committer)).
  change (_types !! "user") with (Some (class_ User)).
  repeat split; apply display_of_class; intros dict; apply repr_inherits.
Qed.

(** X17. An element of a registered class other than [BaseResponse]
    whose children are all text nodes or nodes without children decodes
    to an instance, and that instance cannot be displayed: its
    [__repr__] raises [AttributeError] for the field it reads. *)
Theorem instance_without_fields_has_no_display types el kind c :
  find_type types el = Ok (Some kind) -> kind <> "" ->
  types !! kind = Some (class_ c) -> c <> BaseResponse ->
  Forall (fun ch => has_content ch = false) (childNodes el) ->
  exists v field,
    _parse types el = Ok v /\
    display v = Some (Raise (AttributeError field)).
Proof.
  intros Hty Hne Hreg Hc Hchs. exists (VInstance c ∅).
  assert (Hv : _parse types el = Ok (VInstance c ∅)).
  { rewrite (_parse_kind types el kind Hty Hne). unfold dispatch.
    rewrite Hreg, call_class. unfold BaseResponse__init__.
    by rewrite init_loop_no_content. }
  destruct c; try done; eexists; (split; [exact Hv | reflexivity]).
Qed.

(** X18. With ['%s' % text] the text itself, the element
    <repository><owner>o</owner><name>n</name></repository> decodes to
    an instance with the display form "<<Repository o/n>>". *)
Theorem repository_display_form (o n : string) :
  (forall s, format_s (VUnicode s) = Ok s) ->
  exists dict,
    _parse _types
      (Element "repository" ∅
         [ Element "owner" ∅ [CharacterData Text o];
           Element "name" ∅ [CharacterData Text n] ])
    = Ok (VInstance Repository dict) /\
    dict !! "owner" = Some (VUnicode o) /\
    dict !! "name" = Some (VUnicode n) /\
    __repr__ Repository dict
    = Ok ("<<Repository " ++ o ++ "/" ++ n ++ ">>").
Proof.
  intros Hfmt.
  exists (<["name" := VUnicode n]> (<["owner" := VUnicode o]> ∅)).
  split; [reflexivity |]. split; [reflexivity |]. split; [reflexivity |].
  unfold __repr__. cbn [mro omap list_omap repr_body head].
  unfold getattr.
  change ((<["name" := VUnicode n]> (<["owner" := VUnicode o]> ∅)
           : gmap string value) !! "owner") with (Some (VUnicode o)).
  change ((<["name" := VUnicode n]> (<["owner" := VUnicode o]> ∅)
           : gmap string value) !! "name") with (Some (VUnicode n)).
  cbn. by rewrite !Hfmt.
Qed.

End Display.

(** ** The further properties on the example documents *)

Module MoreChecks.
Import Examples MoreExamples.

Lemma unregistered_kind_raises_key_error_witness :
  find_type _types x_yaml = Ok (Some "yaml") /\
  "yaml" <> "" /\
  _types !! "yaml" = None /\
  @_parse rt _types x_yaml = Raise (KeyError "yaml").
Proof.
  assert (Ht : find_type _types x_yaml = Ok (Some "yaml")) by reflexivity.
  assert (Hne : "yaml" <> "") by discriminate.
  assert (Hr : _types !! "yaml" = None) by reflexivity.
  repeat (split; [assumption |]).
  exact (proj1 (@unregistered_kind_raises_key_error rt _types x_yaml)
           "yaml" Ht Hne Hr).
Defined.

Lemma key_error_names_a_missing_kind_witness :
  @_parse rt _types broken_list = Raise (KeyError "yaml") /\
  _types !! "yaml" = None /\
  exists x, In x (nodes broken_list) /\
            find_type _types x = Ok (Some "yaml").
Proof.
  assert (He : @_parse rt _types broken_list = Raise (KeyError "yaml"))
    by reflexivity.
  split; [exact He |].
  destruct (@key_error_names_a_missing_kind rt _types broken_list "yaml" He)
    as (Hk & _ & Hx).
  split; [exact Hk | exact Hx].
Defined.

Lemma unregistering_unnamed_kind_witness :
  "user" <> "string" /\
  Forall (fun n => names_kind "user" n = false) (nodes key) /\
  @_parse rt (delete "user" _types) key = @_parse rt _types key.
Proof.
  assert (Hne : "user" <> "string") by discriminate.
  assert (Hnodes : Forall (fun n => names_kind "user" n = false) (nodes key))
    by (repeat constructor).
  split; [exact Hne |]. split; [exact Hnodes |].
  rewrite (@unregistering_unnamed_kind rt _types "user" key Hne Hnodes).
  reflexivity.
Defined.

Lemma decoded_value_has_the_type_of_its_kind_witness :
  @_parse rt _types x_integer = Ok (VInt 42) /\
  exists kind f, find_type _types x_integer = Ok (Some kind) /\
                 _types !! kind = Some f /\ value_of f (VInt 42).
Proof.
  assert (Hv : @_parse rt _types x_integer = Ok (VInt 42)) by reflexivity.
  split; [exact Hv |].
  exact (@decoded_value_has_the_type_of_its_kind rt _types x_integer _ Hv).
Defined.

Lemma field_names_have_no_hyphen_witness :
  @_parse rt _types key = Ok (VInstance PublicKey key_dict) /\
  "public_key_id" ∈ dom key_dict /\
  forall n, String.get n "public_key_id" <> Some "-"%char.
Proof.
  assert (Hv : @_parse rt _types key = Ok (VInstance PublicKey key_dict))
    by (by vm_compute).
  assert (Hk : "public_key_id" ∈ dom key_dict)
    by (apply elem_of_dom; by eexists).
  split; [exact Hv |]. split; [exact Hk |].
  exact (proj1 (@field_names_have_no_hyphen rt _types key PublicKey key_dict
                  "public_key_id" Hv Hk)).
Defined.

Lemma first_failing_child_fails_the_container_witness :
  find_type _types broken_list = Ok (Some "array") /\
  @_parse rt _types x_yaml = Raise (KeyError "yaml") /\
  @_parse rt _types broken_list = Raise (KeyError "yaml").
Proof.
  assert (Ht : find_type _types broken_list = Ok (Some "array"))
    by reflexivity.
  assert (He : @_parse rt _types x_yaml = Raise (KeyError "yaml"))
    by reflexivity.
  split; [exact Ht |]. split; [exact He |].
  apply (@first_failing_child_fails_the_container rt _types broken_list
           "array" [elem "a" [text "1"]] x_yaml [elem "b" [text "2"]]).
  - exact Ht.
  - discriminate.
  - left. reflexivity.
  - reflexivity.
  - intros c [<- | []] _. by eexists.
  - reflexivity.
  - exact He.
Defined.

Lemma container_without_content_is_empty_witness :
  find_type _types user_login = Ok (Some "user") /\
  Forall (fun ch => has_content ch = false) (childNodes user_login) /\
  @_parse rt _types user_login = Ok (VInstance User ∅).
Proof.
  assert (Ht : find_type _types user_login = Ok (Some "user"))
    by reflexivity.
  assert (Hne : "user" <> "") by discriminate.
  assert (Hc : Forall (fun ch => has_content ch = false)
                      (childNodes user_login)) by (repeat constructor).
  split; [exact Ht |]. split; [exact Hc |].
  exact (proj2 (@container_without_content_is_empty rt _types user_login
                  "user" Ht Hne Hc) User eq_refl).
Defined.

Lemma container_kind_is_the_first_marker_witness :
  attributes marked ≫= (.!! "type") = None /\
  from_option (registered _types) false (localName marked) = false /\
  @_parse rt _types marked = @dispatch rt _types "user" marked.
Proof.
  assert (Ha : attributes marked ≫= (.!! "type") = None) by reflexivity.
  assert (Hn : from_option (registered _types) false (localName marked)
               = false) by reflexivity.
  split; [exact Ha |]. split; [exact Hn |].
  refine (proj1 (@container_kind_is_the_first_marker rt _types marked
                   [] (elem "type" [text "user"]) [elem "name" [text "n"]]
                   Ha Hn _ eq_refl _ eq_refl) Text "user" eq_refl _).
  - cbn. lia.
  - constructor.
  - discriminate.
Defined.

Lemma container_without_marker_cannot_be_parsed_witness :
  let root := documentElement branches_doc in
  attributes root ≫= (.!! "type") = None /\
  from_option (registered _types) false (localName root) = false /\
  @_parse rt _types root = Raise (Exception root (dom _types)).
Proof.
  intros root.
  assert (Ha : attributes root ≫= (.!! "type") = None) by reflexivity.
  assert (Hn : from_option (registered _types) false (localName root)
               = false) by reflexivity.
  split; [exact Ha |]. split; [exact Hn |].
  apply (@container_without_marker_cannot_be_parsed rt _types root Ha Hn).
  - cbn. lia.
  - repeat constructor; discriminate.
Defined.

Lemma scalar_reads_the_first_child_only_witness :
  @_parse rt _types mixed = @_parse rt _types (typed "x" "string" [text "ab"])
  /\ @_parse rt _types mixed = Ok (VUnicode "ab").
Proof.
  split; [| reflexivity].
  apply (@scalar_reads_the_first_child_only rt _types "x"
           {[ "type" := "string" ]} (text "ab") [elem "b" []; text "cd"]
           "string" lambda_string).
  - reflexivity.
  - discriminate.
  - reflexivity.
Defined.

Lemma later_registration_replaces_earlier_witness :
  load_known_types {[ "user" := lambda_ lambda_string ]} [class_ User]
    !! "user" = Some (class_ User) /\
  load_known_types {[ "user" := lambda_ lambda_string ]} [class_ User]
    !! "plan" = None.
Proof.
  destruct (later_registration_replaces_earlier
              {[ "user" := lambda_ lambda_string ]} [class_ User] "user")
    as [Hlast _].
  destruct (later_registration_replaces_earlier
              {[ "user" := lambda_ lambda_string ]} [class_ User] "plan")
    as [_ Hnone].
  split.
  - apply (Hlast [] (class_ User) []); [reflexivity | reflexivity |].
    intros t' [].
  - rewrite Hnone; [reflexivity |].
    intros t [<- | []]. discriminate.
Defined.

Lemma registry_does_not_depend_on_order_witness :
  NoDup (omap parses module_globals) /\
  load_known_types _types_literal (reverse module_globals) = _types.
Proof.
  assert (Hnodup : NoDup (omap parses module_globals)).
  { apply (bool_decide_unpack _). by vm_compute. }
  split; [exact Hnodup |]. symmetry.
  apply (registry_does_not_depend_on_order _types_literal module_globals
           (reverse module_globals) Hnodup).
  symmetry. apply reverse_Permutation.
Defined.

Lemma issues_list_needs_user_witness :
  (∅ : gmap string callable) !! "user" = None /\
  @IssuesEndpoint.list rt (serve "<branches/>") "u" "r" "open" ∅
  = (Raise (KeyError "user"), ∅).
Proof.
  assert (Hu : (∅ : gmap string callable) !! "user" = None) by reflexivity.
  split; [exact Hu |].
  exact (proj1 (@issues_list_needs_user rt (serve "<branches/>")
                  "u" "r" "open" ∅ Hu)).
Defined.

Lemma branches_values_are_ascii_witness :
  fst (@RepositoryEndpoint.branches rt (serve "<branches/>") "u" "r" ∅)
  = Ok {[ "master" := "sha1"; "dev" := "sha2" ]} /\
  ascii_only "sha1" = true.
Proof.
  assert (Hrv : fst (@RepositoryEndpoint.branches rt (serve "<branches/>")
                       "u" "r" ∅)
                = Ok {[ "master" := "sha1"; "dev" := "sha2" ]})
    by (by vm_compute).
  split; [exact Hrv |].
  exact (proj1 (@branches_values_are_ascii rt (serve "<branches/>") "u" "r" ∅
                  _ "master" "sha1" Hrv eq_refl)).
Defined.

Lemma branches_first_bad_child_witness :
  @BaseEndpoint._fetch rt (serve "<bad/>")
    ("repos/show/" ++ "u" ++ "/" ++ "r" ++ "/branches")
  = Ok bad_branches_doc /\
  fst (@RepositoryEndpoint.branches rt (serve "<bad/>") "u" "r" _types)
  = Raise (AttributeError "data").
Proof.
  assert (Hdoc : @BaseEndpoint._fetch rt (serve "<bad/>")
                   ("repos/show/" ++ "u" ++ "/" ++ "r" ++ "/branches")
                 = Ok bad_branches_doc) by reflexivity.
  split; [exact Hdoc |].
  refine (proj1 (@branches_first_bad_child rt (serve "<bad/>") "u" "r" _types
                   bad_branches_doc [elem "master" [text "sha1"]]
                   (elem "dev" []) [] Hdoc eq_refl _ _) _).
  - intros c' [<- | []] _. exists Text, "sha1". by split.
  - discriminate.
  - intros k d. discriminate.
Defined.

(** C9, as stated, does not hold: the record that
    <commit><id>abc</id><tree-id>t</tree-id></commit> decodes to under
    "parent" and the one it decodes to under "commit" differ by their
    class and have the same display text, "<<Commit: abc>>". *)
Lemma parent_displays_as_commit :
  @dispatch rt _types "parent" commit = Ok (VInstance Parent commit_dict) /\
  @dispatch rt _types "commit" commit = Ok (VInstance Commit commit_dict) /\
  @display ReferenceFormat.formatting (VInstance Parent commit_dict)
  = Some (Ok "<<Commit: abc>>") /\
  @display ReferenceFormat.formatting (VInstance Commit commit_dict)
  = Some (Ok "<<Commit: abc>>") /\
  ~ (forall vp vc,
       @dispatch rt _types "parent" commit = Ok vp ->
       @dispatch rt _types "commit" commit = Ok vc ->
       class_of vp <> class_of vc /\
       @display ReferenceFormat.formatting vp
       <> @display ReferenceFormat.formatting vc).
Proof.
  assert (Hp : @dispatch rt _types "parent" commit
               = Ok (VInstance Parent commit_dict)) by (by vm_compute).
  assert (Hc : @dispatch rt _types "commit" commit
               = Ok (VInstance Commit commit_dict)) by (by vm_compute).
  assert (Hdp : @display ReferenceFormat.formatting
                  (VInstance Parent commit_dict)
                = Some (Ok "<<Commit: abc>>")) by (by vm_compute).
  assert (Hdc : @display ReferenceFormat.formatting
                  (VInstance Commit commit_dict)
                = Some (Ok "<<Commit: abc>>")) by (by vm_compute).
  repeat (split; [assumption |]).
  intros Hclaim. destruct (Hclaim _ _ Hp Hc) as [_ Hdiff].
  apply Hdiff. by rewrite Hdp, Hdc.
Qed.

Lemma variants_differ_in_class_only_witness :
  same_decoding (H := rt) _types "parent" Parent "commit" Commit commit /\
  @display ReferenceFormat.formatting
    <$> @dispatch rt _types "parent" commit
  = @display ReferenceFormat.formatting
      <$> @dispatch rt _types "commit" commit.
Proof.
  destruct (@variants_differ_in_class_only rt ReferenceFormat.formatting)
    as (_ & _ & Hsame).
  exact (proj1 (Hsame commit)).
Defined.

Lemma repository_search_request_witness :
  fst (@RepositoryEndpoint.search rt signed_in "a b?c" _types)
  = Raise (ExternalError
             ("http://github.com/api/v2/xml/repos/search/a+b%3Fc"
              ++ "?login=dustin&token=s3c/r%26t")).
Proof.
  rewrite (proj1 (@repository_search_request rt signed_in "a b?c" _types)).
  reflexivity.
Defined.

Lemma instance_without_fields_has_no_display_witness :
  find_type _types user_login = Ok (Some "user") /\
  exists v field,
    @_parse rt _types user_login = Ok v /\
    display (H := ReferenceFormat.formatting) v
    = Some (Raise (AttributeError field)).
Proof.
  assert (Ht : find_type _types user_login = Ok (Some "user"))
    by reflexivity.
  split; [exact Ht |].
  apply (@instance_without_fields_has_no_display
           rt ReferenceFormat.formatting _types user_login "user" User Ht).
  - discriminate.
  - reflexivity.
  - discriminate.
  - repeat constructor.
Defined.

Lemma repository_display_form_witness :
  (forall s, @format_s ReferenceFormat.formatting (VUnicode s)
             = Ok s) /\
  exists dict,
    @_parse rt _types
      (Element "repository" ∅
         [ Element "owner" ∅ [CharacterData Text "dustin"];
           Element "name" ∅ [CharacterData Text "py-github"] ])
    = Ok (VInstance Repository dict) /\
    __repr__ (H := ReferenceFormat.formatting) Repository dict
    = Ok "<<Repository dustin/py-github>>".
Proof.
  assert (Hfmt : forall s,
            @format_s ReferenceFormat.formatting (VUnicode s)
            = Ok s) by reflexivity.
  split; [exact Hfmt |].
  destruct (@repository_display_form rt ReferenceFormat.formatting
              "dustin" "py-github" Hfmt) as (dict & Hv & _ & _ & Hrepr).
  exists dict. split; [exact Hv | exact Hrepr].
Defined.

End MoreChecks.
